(** * Request-execution core of the collectors: a shallow embedding

    The development follows the three Python modules of the repository:

    - [src/utils/logging.py]: [configure_logger], [log_and_trace];
    - [src/base/abstract_api_collector.py]: [AbstractAPICollector]
      ([__init__], [_configure_session], [_make_request]);
    - [src/base/abstract_scraper.py]: [AbstractScraper]
      ([__init__], [_configure_session], [_fetch_page], [_parse_html]).

    The code is effectful: it reads the wall clock, talks to the network,
    mutates the process-wide logger registry and writes log lines.  These
    effects are threaded through an explicit [World]; a Python exception is
    a [Raise] result which leaves the world as it was when raised. *)

From Stdlib Require Import ZArith Ascii Lia.
From stdpp Require Import base strings list gmap pretty.

Local Open Scope string_scope.
Local Open Scope Z_scope.
Local Open Scope list_scope.

(** ** Python values used by the code *)

(** Truthiness of an [Optional[str]]: [None] and the empty string are falsy. *)
Definition truthy_str (o : option string) : bool :=
  match o with
  | Some s => negb (String.eqb s "")
  | None => false
  end.

(** Truthiness of an [Optional[Dict[str, str]]]: [None] and [{}] are falsy. *)
Definition truthy_dict (o : option (gmap string string)) : bool :=
  match o with
  | Some d => negb (bool_decide (d = ∅))
  | None => false
  end.

(** ** Exceptions

    The classes the code distinguishes, with the part of their hierarchy the
    [except] clauses look at.  [ConnectionError] and [ConnectTimeout] stand
    for the transport failures of [requests]; [ParserRejectedMarkup] is what
    the markup engine raises; [Exception] is any other exception.  Interpreter
    signals, which derive from [BaseException] alone ([KeyboardInterrupt],
    [SystemExit]), are not failures of a request and are left out. *)
Inductive exc_class : Type :=
  | HTTPError
  | ConnectionError
  | ConnectTimeout
  | RequestException
  | ValueError
  | ParserRejectedMarkup
  | Exception.

#[global] Instance exc_class_eq_dec : EqDecision exc_class.
Proof. solve_decision. Defined.

(** [issubclass c d] for the classes above. *)
Definition issubclass (c d : exc_class) : bool :=
  match d with
  | Exception => true
  | RequestException =>
      match c with
      | HTTPError | ConnectionError | ConnectTimeout | RequestException => true
      | _ => false
      end
  | _ => bool_decide (c = d)
  end.

(** An exception object: its class and [str(e)]. *)
Record exn : Type := mk_exn { exc_type : exc_class; exc_str : string }.

#[global] Instance exn_eq_dec : EqDecision exn.
Proof. solve_decision. Defined.

Definition isinstance (e : exn) (c : exc_class) : bool :=
  issubclass (exc_type e) c.

Inductive Result (A : Type) : Type :=
  | Ok (a : A)
  | Raise (e : exn).
Arguments Ok {A} a.
Arguments Raise {A} e.

(** ** The [requests] data the code touches *)

(** What one call of [Session.request] puts on the wire: the arguments of the
    call merged with the settings of the session. *)
Record Request (body : Type) : Type := mk_Request {
  rq_method : string;
  rq_url : string;
  rq_params : option (gmap string string);
  rq_json : option body;
  rq_timeout : option Z;
  rq_headers : gmap string string;
  rq_auth : option (string * string);
  rq_proxies : gmap string string
}.
Arguments mk_Request {body}.
Arguments rq_method {body}.
Arguments rq_url {body}.
Arguments rq_params {body}.
Arguments rq_json {body}.
Arguments rq_timeout {body}.
Arguments rq_headers {body}.
Arguments rq_auth {body}.
Arguments rq_proxies {body}.

Record Response : Type := mk_Response {
  status_code : Z;
  reason : string;
  url : string;
  text : string
}.

(** [requests.Session]: the settings the two [_configure_session] touch. *)
Record Session : Type := mk_Session {
  session_headers : gmap string string;
  session_auth : option (string * string);
  session_proxies : gmap string string
}.

(** ** The [logging] data the code touches *)

Definition INFO : Z := 20.
Definition WARNING : Z := 30.
Definition ERROR : Z := 40.
Definition NOTSET : Z := 0.

Definition getLevelName (level : Z) : string :=
  if level =? 10 then "DEBUG"
  else if level =? INFO then "INFO"
  else if level =? WARNING then "WARNING"
  else if level =? ERROR then "ERROR"
  else if level =? 50 then "CRITICAL"
  else "Level " +:+ pretty level.

(** A [logging.StreamHandler] on [sys.stderr]: the identity of the object,
    its level and the format string of its formatter ([None] until
    [setFormatter] is called). *)
Record Handler : Type := mk_Handler {
  h_id : nat;
  h_level : Z;
  h_formatter : option string
}.

#[global] Instance Handler_eq_dec : EqDecision Handler.
Proof. solve_decision. Defined.

(** A [logging.Logger] of the registry: its level and its handlers, in the
    order in which [addHandler] appended them. *)
Record Logger : Type := mk_Logger {
  lg_level : Z;
  lg_handlers : list Handler
}.

(** ** The platform: clock, network and parsers

    Everything the code calls but does not define.  Time is an abstract
    [float]; [time_time n] is the [n]-th reading of [time.time()] in the run
    and [send n rq] the outcome of the [n]-th call on the wire. *)
Class Platform : Type := {
  float : Type;
  time_time : nat → float;
  float_sub : float → float → float;
  format_2f : float → string;
  formatTime : float → string;
  json : Type;
  json_loads : string → Result json;
  soup : Type;
  html_parser : string → Result soup;
  default_headers : gmap string string;
  send : nat → Request json → Result Response
}.

Section Model.
Context `{Platform}.

(** ** The world the code runs in *)

(** A [logging.LogRecord]: logger name, level, message and creation time. *)
Record LogRecord : Type := mk_LogRecord {
  rec_name : string;
  levelno : Z;
  message : string;
  created : float
}.

(** [loggerDict] is the process-wide registry of [logging]; a logger object is
    referred to by its key there, so every holder of the logger sees the
    handlers added by the others.  [handled] lists the log records the
    loggers accepted, [stderr] the lines the stream handlers wrote, [wire]
    the requests issued; [clock] counts the readings of the wall clock and
    [next_id] the handler objects constructed so far. *)
Record World : Type := mk_World {
  loggerDict : gmap string Logger;
  handled : list LogRecord;
  stderr : list string;
  wire : list (Request json);
  clock : nat;
  next_id : nat
}.

Definition set_loggerDict (f : gmap string Logger → gmap string Logger) (w : World) : World :=
  mk_World (f (loggerDict w)) (handled w) (stderr w) (wire w) (clock w) (next_id w).

(** A fresh interpreter: no logger configured, nothing written. *)
Definition initial_world : World := mk_World ∅ [] [] [] 0%nat 0%nat.

(** ** Computations: state and exceptions *)

Definition M (A : Type) : Type := World → Result A * World.

#[global] Instance M_ret : MRet M := λ A a w, (Ok a, w).

#[global] Instance M_bind : MBind M := λ A B k m w,
  match m w with
  | (Ok a, w') => k a w'
  | (Raise e, w') => (Raise e, w')
  end.

(** [raise e] *)
Definition raise {A : Type} (e : exn) : M A := λ w, (Raise e, w).

(** [try: body  except Exception as e: handler e] *)
Definition try_except {A : Type} (body : M A) (handler : exn → M A) : M A := λ w,
  match body w with
  | (Ok a, w') => (Ok a, w')
  | (Raise e, w') => handler e w'
  end.

(** [time.time()] *)
Definition time : M float := λ w,
  (Ok (time_time (clock w)),
   mk_World (loggerDict w) (handled w) (stderr w) (wire w) (S (clock w)) (next_id w)).

(** ** [logging]: the part of the library the code relies on

    The registry is flat: the names the collectors register are class names,
    which have no dotted ancestor, and the root logger keeps its defaults
    (level [WARNING], no handler), which the code never changes.  The lines
    and the effective level computed here are therefore those of the library
    for a logger whose name has no dot and is not a name of the root logger,
    as long as the root logger is left alone ([top_level_name] and
    [root_untouched] below); a dotted name would also reach the handlers and
    the level of its ancestors, which are not followed here. *)

Definition new_Logger : Logger := mk_Logger NOTSET [].

(** The logger object behind a reference. *)
Definition logger_at (w : World) (name : string) : Logger :=
  default new_Logger (loggerDict w !! name).

(** [logging.getLogger(name)]: the registered logger, created on first use. *)
Definition getLogger (name : string) : M string := λ w,
  match loggerDict w !! name with
  | Some _ => (Ok name, w)
  | None => (Ok name, set_loggerDict (insert name new_Logger) w)
  end.

(** [logger.setLevel(level)] *)
Definition setLevel (logger : string) (level : Z) : M unit := λ w,
  let l := logger_at w logger in
  (Ok (), set_loggerDict (insert logger (mk_Logger level (lg_handlers l))) w).

(** [logging.StreamHandler()]: a new handler object. *)
Definition StreamHandler : M Handler := λ w,
  (Ok (mk_Handler (next_id w) NOTSET None),
   mk_World (loggerDict w) (handled w) (stderr w) (wire w) (clock w) (S (next_id w))).

(** [handler.setFormatter(logging.Formatter(fmt))] *)
Definition setFormatter (handler : Handler) (fmt : string) : Handler :=
  mk_Handler (h_id handler) (h_level handler) (Some fmt).

(** [logger.addHandler(hdlr)]: appended unless that object is already there. *)
Definition addHandler (logger : string) (hdlr : Handler) : M unit := λ w,
  let l := logger_at w logger in
  if bool_decide (hdlr ∈ lg_handlers l) then (Ok (), w)
  else (Ok (), set_loggerDict (insert logger (mk_Logger (lg_level l) (lg_handlers l ++ [hdlr]))) w).

(** [logger.getEffectiveLevel()]: an unset level defers to the root logger. *)
Definition getEffectiveLevel (l : Logger) : Z :=
  if lg_level l =? NOTSET then WARNING else lg_level l.

Definition isEnabledFor (l : Logger) (level : Z) : bool :=
  getEffectiveLevel l <=? level.

(** [fmt % record.__dict__] for formats made of text and [%(key)s]
    directives; [%%] is a percent sign.  A directive naming no attribute of
    the record is left out of the line. *)
Inductive scan : Type :=
  | Text
  | Percent
  | Key (acc : string)
  | Closed (acc : string).

Fixpoint percent_format (fields : string → string) (st : scan) (fmt : string) : string :=
  match fmt with
  | EmptyString => ""
  | String c rest =>
      match st with
      | Text =>
          if Ascii.eqb c "%"%char then percent_format fields Percent rest
          else String c (percent_format fields Text rest)
      | Percent =>
          if Ascii.eqb c "("%char then percent_format fields (Key "") rest
          else String c (percent_format fields Text rest)
      | Key acc =>
          if Ascii.eqb c ")"%char then percent_format fields (Closed acc) rest
          else percent_format fields (Key (acc +:+ String c "")) rest
      | Closed acc => fields acc +:+ percent_format fields Text rest
      end
  end.

Definition record_dict (r : LogRecord) (key : string) : string :=
  if String.eqb key "asctime" then formatTime (created r)
  else if String.eqb key "name" then rec_name r
  else if String.eqb key "levelname" then getLevelName (levelno r)
  else if String.eqb key "message" then message r
  else "".

(** [handler.format(record)]; a handler without formatter prints the message. *)
Definition format (h : Handler) (r : LogRecord) : string :=
  percent_format (record_dict r) Text (default "%(message)s" (h_formatter h)).

(** [logger.callHandlers(record)]: the lines written to the stream, one per
    handler whose level admits the record; with no handler at all the
    library's last-resort handler prints warnings and errors bare. *)
Definition callHandlers (l : Logger) (r : LogRecord) : list string :=
  match lg_handlers l with
  | [] => if WARNING <=? levelno r then [message r] else []
  | hs => (λ h, format h r) <$> filter (λ h, h_level h ≤ levelno r) hs
  end.

(** [logger.log(level, msg)] *)
Definition Logger_log (logger : string) (level : Z) (msg : string) : M unit := λ w,
  let l := logger_at w logger in
  if isEnabledFor l level then
    let r := mk_LogRecord logger level msg (time_time (clock w)) in
    (Ok (),
     mk_World (loggerDict w) (handled w ++ [r]) (stderr w ++ callHandlers l r)
       (wire w) (S (clock w)) (next_id w))
  else (Ok (), w).

(** [logger.info(msg)] and [logger.error(msg)] *)
Definition Logger_info (logger : string) (msg : string) : M unit :=
  Logger_log logger INFO msg.

Definition Logger_error (logger : string) (msg : string) : M unit :=
  Logger_log logger ERROR msg.
End Model.

(** ** [requests]: the part of the library the code relies on *)
Section Requests.
Context `{Platform}.

(** [requests.Session()] *)
Definition new_Session : Session := mk_Session default_headers None ∅.

(** [session.request(method, url, params=, json=, timeout=)]: one call on the
    wire, carrying the settings of the session. *)
Definition Session_request (s : Session) (method url : string)
    (params : option (gmap string string)) (body : option json)
    (timeout : option Z) : M Response := λ w,
  let rq := mk_Request method url params body timeout
              (session_headers s) (session_auth s) (session_proxies s) in
  (send (length (wire w)) rq,
   mk_World (loggerDict w) (handled w) (stderr w) (wire w ++ [rq]) (clock w) (next_id w)).

(** [session.get(url, params=, timeout=)] *)
Definition Session_get (s : Session) (url : string)
    (params : option (gmap string string)) (timeout : option Z) : M Response :=
  Session_request s "GET" url params None timeout.

(** [response.raise_for_status()]; [http_error_msg] is its local variable,
    empty unless the status is a client or a server error. *)
Definition http_error_msg (r : Response) : string :=
  if (400 <=? status_code r) && (status_code r <? 500) then
    pretty (status_code r) +:+ " Client Error: " +:+ reason r +:+ " for url: " +:+ url r
  else if (500 <=? status_code r) && (status_code r <? 600) then
    pretty (status_code r) +:+ " Server Error: " +:+ reason r +:+ " for url: " +:+ url r
  else "".

Definition raise_for_status (r : Response) : M unit :=
  if negb (String.eqb (http_error_msg r) "") then raise (mk_exn HTTPError (http_error_msg r))
  else mret ().

(** [response.ok], which is also the truth value of a response object:
    whether [raise_for_status] would pass. *)
Definition Response_ok (r : Response) : bool :=
  negb ((400 <=? status_code r) && (status_code r <? 600)).

(** [response.json()] *)
Definition Response_json (r : Response) : M json := λ w, (json_loads (text r), w).

(** [BeautifulSoup(markup, "html.parser")] *)
Definition BeautifulSoup (markup : string) : M soup := λ w, (html_parser markup, w).
End Requests.

(** ** [src/utils/logging.py] *)
Section Utils.
Context `{Platform}.

Definition configure_logger (name : string) : M string :=
  logger ← getLogger name;
  setLevel logger INFO;;
  handler ← StreamHandler;
  let formatter := "%(asctime)s - %(name)s - %(levelname)s - %(message)s" in
  let handler := setFormatter handler formatter in
  addHandler logger handler;;
  mret logger.

(** [if response:] is the truth value of the argument: [None] is falsy, and
    so is a response object whose status is an error status. *)
Definition log_and_trace (logger : string) (method_name : string)
    (start_time : float) (response : option Response) : M unit :=
  now ← time;
  let elapsed_time := float_sub now start_time in
  match response with
  | Some r =>
      if Response_ok r then
        Logger_info logger
          (method_name +:+ " completed in " +:+ format_2f elapsed_time
             +:+ "s with status code " +:+ pretty (status_code r))
      else
        Logger_info logger (method_name +:+ " completed in " +:+ format_2f elapsed_time +:+ "s")
  | None =>
      Logger_info logger (method_name +:+ " completed in " +:+ format_2f elapsed_time +:+ "s")
  end.
End Utils.

(** ** [src/base/abstract_api_collector.py] *)
Module AbstractAPICollector.
Section Class.
Context `{Platform}.

(** The attributes [__init__] has set when it calls [_configure_session]. *)
Record attrs : Type := mk_attrs {
  base_url : string;
  api_key : option string;
  username : option string;
  password : option string
}.

(** An instance once [__init__] has returned; [logger] refers to the logger
    registered under the name of the concrete class. *)
Record t : Type := mk {
  self_attrs : attrs;
  session : Session;
  logger : string
}.

Definition _configure_session (self : attrs) : Session :=
  let session := new_Session in
  let session :=
    if truthy_str (api_key self) then
      mk_Session
        (<["Authorization" := "Bearer " +:+ default "" (api_key self)]> (session_headers session))
        (session_auth session) (session_proxies session)
    else session in
  let session :=
    if truthy_str (username self) && truthy_str (password self) then
      mk_Session (session_headers session)
        (Some (default "" (username self), default "" (password self)))
        (session_proxies session)
    else session in
  session.

(** [cls_name] is [self.__class__.__name__], the name of the concrete
    subclass being instantiated. *)
Definition __init__ (cls_name : string) (base_url : string)
    (api_key username password : option string) : M t :=
  let self := mk_attrs base_url api_key username password in
  let session := _configure_session self in
  logger ← configure_logger cls_name;
  mret (mk self session logger).

Definition _make_request (self : t) (method endpoint : string)
    (params : option (gmap string string)) (data : option json) : M json :=
  let url := base_url (self_attrs self) +:+ "/" +:+ endpoint in
  start_time ← time;
  try_except
    (response ← Session_request (session self) method url params data None;
     raise_for_status response;;
     log_and_trace (logger self) "_make_request" start_time (Some response);;
     Response_json response)
    (λ err,
       if isinstance err HTTPError then
         Logger_error (logger self) ("HTTP error occurred: " +:+ exc_str err);;
         raise err
       else if isinstance err RequestException then
         Logger_error (logger self) ("Request error occurred: " +:+ exc_str err);;
         raise err
       else
         Logger_error (logger self) ("Unexpected error: " +:+ exc_str err);;
         raise err).
End Class.
End AbstractAPICollector.

(** ** [src/base/abstract_scraper.py] *)
Module AbstractScraper.
Section Class.
Context `{Platform}.

Record attrs : Type := mk_attrs {
  base_url : string;
  user_agent : string;
  proxies : option (gmap string string)
}.

Record t : Type := mk {
  self_attrs : attrs;
  session : Session;
  logger : string
}.

Definition _configure_session (self : attrs) : Session :=
  let session := new_Session in
  let session :=
    mk_Session (<["User-Agent" := user_agent self]> (session_headers session))
      (session_auth session) (session_proxies session) in
  let session :=
    if truthy_dict (proxies self) then
      mk_Session (session_headers session) (session_auth session)
        (default ∅ (proxies self) ∪ session_proxies session)
    else session in
  session.

Definition __init__ (cls_name : string) (base_url : string)
    (user_agent : option string) (proxies : option (gmap string string)) : M t :=
  let user_agent :=
    if truthy_str user_agent then default "" user_agent
    else "Mozilla/5.0 (compatible; AbstractScraper/1.0)" in
  let self := mk_attrs base_url user_agent proxies in
  let session := _configure_session self in
  logger ← configure_logger cls_name;
  mret (mk self session logger).

(** Only [HTTPError] and the other [RequestException]s are handled here: any
    other exception leaves the function as it is, with nothing logged. *)
Definition _fetch_page (self : t) (endpoint : string)
    (params : option (gmap string string)) : M string :=
  let url := base_url (self_attrs self) +:+ "/" +:+ endpoint in
  start_time ← time;
  try_except
    (response ← Session_get (session self) url params (Some 10);
     raise_for_status response;;
     log_and_trace (logger self) "_fetch_page" start_time (Some response);;
     mret (text response))
    (λ err,
       if isinstance err HTTPError then
         Logger_error (logger self)
           ("HTTP error occurred while fetching page: " +:+ exc_str err);;
         raise err
       else if isinstance err RequestException then
         Logger_error (logger self)
           ("Request error occurred while fetching page: " +:+ exc_str err);;
         raise err
       else raise err).

Definition _parse_html (self : t) (html_content : string) : M soup :=
  try_except
    (soup ← BeautifulSoup html_content;
     mret soup)
    (λ err,
       Logger_error (logger self) ("Error while parsing HTML: " +:+ exc_str err);;
       raise (mk_exn ValueError ("Invalid HTML content: " +:+ exc_str err))).
End Class.
End AbstractScraper.

(** ** A concrete platform

    Time in hundredths of a second, a clock that advances by a quarter of a
    second per reading, and a small server.  It is used to run the code on
    concrete inputs. *)
Module Demo.

Definition two_digits (z : Z) : string :=
  if z <? 10 then "0" +:+ pretty z else pretty z.

(** [format(x, ".2f")] for a time kept in hundredths. *)
Definition centis_2f (z : Z) : string :=
  if z <? 0 then "-" +:+ pretty (- z / 100) +:+ "." +:+ two_digits (- z mod 100)
  else pretty (z / 100) +:+ "." +:+ two_digits (z mod 100).

Definition loads (s : string) : Result string :=
  if String.prefix "[" s || String.prefix "{" s then Ok s
  else Raise (mk_exn ValueError "Expecting value: line 1 column 1 (char 0)").

(** The markup engine rejects a marked section it does not know. *)
Definition parser (s : string) : Result string :=
  if String.prefix "<![" s then
    Raise (mk_exn ParserRejectedMarkup "The markup you provided was rejected by the parser. Trying a different parser or a different encoding may help.")
  else Ok s.

Definition library_headers : gmap string string :=
  {[ "User-Agent" := "python-requests/2.31.0";
     "Accept-Encoding" := "gzip, deflate";
     "Accept" := "*/*";
     "Connection" := "keep-alive" ]}.

(** The server: one resource, one missing page, one page whose body is not
    structured data, one host that refuses the connection and one address
    whose host name the transport fails to encode, with an error that is not
    a [RequestException]. *)
Definition server (n : nat) (rq : Request string) : Result Response :=
  let u := rq_url rq in
  if String.eqb u "https://api.example.com/users/1" then
    Ok (mk_Response 200 "OK" u "[1, 2, 3]")
  else if String.eqb u "https://api.example.com/missing" then
    Ok (mk_Response 404 "Not Found" u "Not Found")
  else if String.eqb u "https://api.example.com/broken" then
    Ok (mk_Response 200 "OK" u "<html></html>")
  else if String.eqb u "https://api.example.com/down" then
    Raise (mk_exn ConnectionError "Connection refused")
  else if String.eqb u "https://api.example.com/odd" then
    Raise (mk_exn ValueError "label empty or too long")
  else Ok (mk_Response 200 "OK" u "<html><a href=/x>l</a></html>").

#[global] Instance platform : Platform := {|
  float := Z;
  time_time := λ n, 25 * Z.of_nat n;
  float_sub := Z.sub;
  format_2f := centis_2f;
  formatTime := λ z, "t=" +:+ centis_2f z;
  json := string;
  json_loads := loads;
  soup := string;
  html_parser := parser;
  default_headers := library_headers;
  send := server
|}.

(** A collector of class [UserCollector] and a scraper of class
    [PageScraper], as their constructors leave them. *)
Definition collector : AbstractAPICollector.t :=
  AbstractAPICollector.mk
    (AbstractAPICollector.mk_attrs "https://api.example.com" (Some "s3cr3t") None None)
    (AbstractAPICollector._configure_session
       (AbstractAPICollector.mk_attrs "https://api.example.com" (Some "s3cr3t") None None))
    "UserCollector".

Definition scraper : AbstractScraper.t :=
  AbstractScraper.mk
    (AbstractScraper.mk_attrs "https://api.example.com"
       "Mozilla/5.0 (compatible; AbstractScraper/1.0)" None)
    (AbstractScraper._configure_session
       (AbstractScraper.mk_attrs "https://api.example.com"
          "Mozilla/5.0 (compatible; AbstractScraper/1.0)" None))
    "PageScraper".

(** The interpreter after both have been constructed, in that order. *)
Definition world : World :=
  (AbstractScraper.__init__ "PageScraper" "https://api.example.com" None None
     (AbstractAPICollector.__init__ "UserCollector" "https://api.example.com"
        (Some "s3cr3t") None None initial_world).2).2.

(** A response with an error status, as a caller may hold one. *)
Definition not_found : Response :=
  mk_Response 404 "Not Found" "https://api.example.com/missing" "Not Found".

End Demo.


(** ** Observations on a run

    What a call added to the world, and the vocabulary of the statements
    below. *)
Section Observations.
Context `{Platform}.

(** The log records accepted between two worlds, and among them the
    error-level ones and the informational ones (the instrumentation events). *)
Definition new_records (w w' : World) : list LogRecord :=
  drop (length (handled w)) (handled w').

Definition errors_logged (w w' : World) : list LogRecord :=
  filter (λ r, levelno r = ERROR) (new_records w w').

Definition events_logged (w w' : World) : list LogRecord :=
  filter (λ r, levelno r = INFO) (new_records w w').

(** The lines written to the stream between two worlds. *)
Definition new_lines (w w' : World) : list string :=
  drop (length (stderr w)) (stderr w').

(** Between [w] and [w'] exactly one request went on the wire and the
    transport answered it with [out]. *)
Definition exchange (w w' : World) (out : Result Response) : Prop :=
  ∃ rq, wire w' = wire w ++ [rq] ∧ send (length (wire w)) rq = out.

(** The logger is at the level [configure_logger] gave it. *)
Definition configured (w : World) (logger : string) : Prop :=
  lg_level (logger_at w logger) = INFO.

(** Every handler object of the registry was constructed in this run. *)
Definition handlers_known (w : World) : Prop :=
  ∀ name l h, loggerDict w !! name = Some l → h ∈ lg_handlers l → (h_id h < next_id w)%nat.

(** The names under which the library hands out the root logger. *)
Definition is_root_name (name : string) : Prop := name = "" ∨ name = "root".

Fixpoint has_dot (name : string) : bool :=
  match name with
  | EmptyString => false
  | String c rest => Ascii.eqb c "."%char || has_dot rest
  end.

(** A logger whose only ancestor is the root logger: no dot in its name, and
    not the root logger itself.  The name of a class is such a name. *)
Definition top_level_name (name : string) : Prop :=
  has_dot name = false ∧ ¬ is_root_name name.

(** Nobody has asked for the root logger: it has its defaults, level
    [WARNING] and no handler. *)
Definition root_untouched (w : World) : Prop :=
  ∀ name, is_root_name name → loggerDict w !! name = None.

(** The handler object a call of [configure_logger] constructs in [w]. *)
Definition fresh_handler (w : World) : Handler :=
  mk_Handler (next_id w) NOTSET
    (Some "%(asctime)s - %(name)s - %(levelname)s - %(message)s").

(** [configure_logger] called for each name of a list, in order. *)
Fixpoint configure_all (names : list string) : M unit :=
  match names with
  | [] => mret ()
  | name :: rest => configure_logger name;; configure_all rest
  end.

(** [log_and_trace] called [n] times in a row with the same arguments. *)
Fixpoint log_and_trace_times (n : nat) (logger method_name : string)
    (start_time : float) (response : option Response) : M unit :=
  match n with
  | O => mret ()
  | S n' =>
      log_and_trace logger method_name start_time response;;
      log_and_trace_times n' logger method_name start_time response
  end.

(** The outcome of a call in the specification's words: a transport failure
    is the outcome; a response with an error status is an [HTTPError]; any
    other response is handed to [decode]. *)
Definition classified {A : Type} (decode : Response → Result A)
    (out : Result Response) : Result A :=
  match out with
  | Raise e => Raise e
  | Ok r =>
      if Response_ok r then decode r
      else Raise (mk_exn HTTPError (http_error_msg r))
  end.

(** The instrumentation line in the specification's words: the operation
    and the elapsed time, then the status code when there is one. *)
Definition trace_line (operation_name : string) (elapsed : float) (code : option Z) : string :=
  operation_name +:+ " completed in " +:+ format_2f elapsed +:+ "s" +:+
  match code with
  | Some c => " with status code " +:+ pretty c
  | None => ""
  end.

(** The text each [except] clause of [_make_request], and of [_fetch_page],
    puts before [str(e)]. *)
Definition api_prefix (e : exn) : string :=
  if isinstance e HTTPError then "HTTP error occurred: "
  else if isinstance e RequestException then "Request error occurred: "
  else "Unexpected error: ".

Definition page_prefix (e : exn) : string :=
  if isinstance e HTTPError then "HTTP error occurred while fetching page: "
  else "Request error occurred while fetching page: ".

(** The request [_make_request], and [_fetch_page], hand to the session. *)
Definition api_request (self : AbstractAPICollector.t) (method endpoint : string)
    (params : option (gmap string string)) (data : option json) : Request json :=
  let s := AbstractAPICollector.session self in
  mk_Request method
    (AbstractAPICollector.base_url (AbstractAPICollector.self_attrs self) +:+ "/" +:+ endpoint)
    params data None (session_headers s) (session_auth s) (session_proxies s).

Definition page_request (self : AbstractScraper.t) (endpoint : string)
    (params : option (gmap string string)) : Request json :=
  let s := AbstractScraper.session self in
  mk_Request "GET"
    (AbstractScraper.base_url (AbstractScraper.self_attrs self) +:+ "/" +:+ endpoint)
    params None (Some 10) (session_headers s) (session_auth s) (session_proxies s).

(** A call that logged nothing: no record accepted, no line written. *)
Definition silent (w w' : World) : Prop :=
  handled w' = handled w ∧ stderr w' = stderr w.

(** The authentication the specification asks of a session built with a
    token: the bearer header and nothing else. *)
Definition token_only (s : Session) (token : string) : Prop :=
  session_headers s !! "Authorization" = Some ("Bearer " +:+ token) ∧ session_auth s = None.
End Observations.

(** * Properties *)

(** ** The library calls *)
Section LibraryFacts.
Context `{Platform}.

Lemma append_nonempty (s t : string) : t ≠ "" → String.eqb (s +:+ t) "" = false.
Proof.
  intros Ht. apply String.eqb_neq. destruct s; simpl; [assumption | discriminate].
Qed.

Lemma http_error_msg_ok (r : Response) :
  Response_ok r = true → http_error_msg r = "".
Proof.
  unfold Response_ok, http_error_msg. intros Hok.
  destruct (400 <=? status_code r) eqn:Hlo; simpl in *.
  - destruct (status_code r <? 600) eqn:Hhi; [discriminate |].
    assert ((status_code r <? 500) = false) as -> by lia.
    destruct (500 <=? status_code r); reflexivity.
  - assert ((500 <=? status_code r) = false) as -> by lia. reflexivity.
Qed.

Lemma http_error_msg_error (r : Response) :
  Response_ok r = false → String.eqb (http_error_msg r) "" = false.
Proof.
  unfold Response_ok, http_error_msg. intros Hok.
  apply negb_false_iff, andb_true_iff in Hok as [Hlo Hhi]. rewrite Hlo. simpl.
  destruct (status_code r <? 500) eqn:Hmid.
  - apply append_nonempty. discriminate.
  - assert ((500 <=? status_code r) = true) as -> by lia. rewrite Hhi. simpl.
    apply append_nonempty. discriminate.
Qed.

Lemma raise_for_status_run (r : Response) (w : World) :
  raise_for_status r w =
    if Response_ok r then (Ok (), w)
    else (Raise (mk_exn HTTPError (http_error_msg r)), w).
Proof.
  unfold raise_for_status. destruct (Response_ok r) eqn:Hok.
  - rewrite (http_error_msg_ok r Hok). reflexivity.
  - rewrite (http_error_msg_error r Hok). reflexivity.
Qed.

Lemma Response_ok_range (r : Response) :
  Response_ok r = false ↔ 400 ≤ status_code r ≤ 599.
Proof. unfold Response_ok. rewrite negb_false_iff, andb_true_iff. lia. Qed.

Lemma Logger_log_configured (w : World) (logger : string) (level : Z) (msg : string) :
  configured w logger → INFO ≤ level →
  Logger_log logger level msg w =
    (Ok (),
     mk_World (loggerDict w)
       (handled w ++ [mk_LogRecord logger level msg (time_time (clock w))])
       (stderr w ++ callHandlers (logger_at w logger)
                      (mk_LogRecord logger level msg (time_time (clock w))))
       (wire w) (S (clock w)) (next_id w)).
Proof.
  unfold configured, Logger_log, isEnabledFor, getEffectiveLevel. intros -> Hle.
  simpl. assert ((INFO <=? level) = true) as -> by lia. reflexivity.
Qed.

Lemma configured_same_registry (w w' : World) (logger : string) :
  loggerDict w' = loggerDict w → configured w logger → configured w' logger.
Proof. unfold configured, logger_at. intros ->. trivial. Qed.
End LibraryFacts.

(** Side conditions on a logger after steps that left the registry alone. *)
Ltac still_configured w :=
  first [assumption | by apply (configured_same_registry w) | done].

(** ** The calls of the two classes, case by case *)
Section Runs.
Context `{Platform}.

Lemma new_records_app (w w' : World) (l : list LogRecord) :
  handled w' = handled w ++ l → new_records w w' = l.
Proof. unfold new_records. intros ->. apply drop_app_length. Qed.

Lemma new_lines_app (w w' : World) (l : list string) :
  stderr w' = stderr w ++ l → new_lines w w' = l.
Proof. unfold new_lines. intros ->. apply drop_app_length. Qed.

Lemma Logger_log_returns (logger : string) (level : Z) (msg : string) (w : World) :
  Logger_log logger level msg w = (Ok (), (Logger_log logger level msg w).2).
Proof. unfold Logger_log. destruct (isEnabledFor _ _); reflexivity. Qed.

Lemma log_and_trace_returns (logger name : string) (start_time : float)
    (response : option Response) (w : World) :
  log_and_trace logger name start_time response w =
    (Ok (), (log_and_trace logger name start_time response w).2).
Proof.
  unfold log_and_trace, mbind, M_bind, time, Logger_info. simpl.
  destruct response as [r|]; [destruct (Response_ok r) |]; apply Logger_log_returns.
Qed.

Lemma _make_request_run (self : AbstractAPICollector.t) (method endpoint : string)
    (params : option (gmap string string)) (data : option json) (w : World) :
  let lg := AbstractAPICollector.logger self in
  let rq := api_request self method endpoint params data in
  let w1 := mk_World (loggerDict w) (handled w) (stderr w) (wire w ++ [rq])
              (S (clock w)) (next_id w) in
  let fail e w' := (Raise e, (Logger_error lg (api_prefix e +:+ exc_str e) w').2) in
  AbstractAPICollector._make_request self method endpoint params data w =
    match send (length (wire w)) rq with
    | Raise e => fail e w1
    | Ok r =>
        if Response_ok r then
          let w2 := (log_and_trace lg "_make_request" (time_time (clock w)) (Some r) w1).2 in
          match json_loads (text r) with
          | Ok j => (Ok j, w2)
          | Raise e => fail e w2
          end
        else fail (mk_exn HTTPError (http_error_msg r)) w1
    end.
Proof.
  intros lg rq w1 fail. cbv beta zeta delta [api_request] in rq.
  assert (Hfail : ∀ e w',
    (if isinstance e HTTPError
     then Logger_error lg ("HTTP error occurred: " +:+ exc_str e);; raise e
     else if isinstance e RequestException
     then Logger_error lg ("Request error occurred: " +:+ exc_str e);; raise e
     else Logger_error lg ("Unexpected error: " +:+ exc_str e);; raise e) w'
    = fail e w').
  { intros e w'. unfold fail, api_prefix, mbind, M_bind, Logger_error, raise.
    destruct (isinstance e HTTPError); [| destruct (isinstance e RequestException)];
      rewrite Logger_log_returns; reflexivity. }
  unfold AbstractAPICollector._make_request, mbind, M_bind, try_except, time,
    Session_request. simpl. fold lg rq w1.
  destruct (send (length (wire w)) rq) as [r|e]; [| apply Hfail].
  rewrite raise_for_status_run.
  destruct (Response_ok r); [| apply Hfail].
  rewrite log_and_trace_returns. unfold Response_json.
  destruct (json_loads (text r)) as [j|e]; [reflexivity | apply Hfail].
Qed.

Lemma isinstance_HTTPError (e : exn) :
  isinstance e HTTPError = true → isinstance e RequestException = true.
Proof. unfold isinstance. destruct (exc_type e); simpl; congruence. Qed.

Lemma _fetch_page_run (self : AbstractScraper.t) (endpoint : string)
    (params : option (gmap string string)) (w : World) :
  let lg := AbstractScraper.logger self in
  let rq := page_request self endpoint params in
  let w1 := mk_World (loggerDict w) (handled w) (stderr w) (wire w ++ [rq])
              (S (clock w)) (next_id w) in
  let fail e w' :=
    if isinstance e RequestException
    then (Raise e, (Logger_error lg (page_prefix e +:+ exc_str e) w').2)
    else (Raise e, w') in
  AbstractScraper._fetch_page self endpoint params w =
    match send (length (wire w)) rq with
    | Raise e => fail e w1
    | Ok r =>
        if Response_ok r then
          (Ok (text r),
           (log_and_trace lg "_fetch_page" (time_time (clock w)) (Some r) w1).2)
        else fail (mk_exn HTTPError (http_error_msg r)) w1
    end.
Proof.
  intros lg rq w1 fail. cbv beta zeta delta [page_request] in rq.
  assert (Hfail : ∀ e w',
    (if isinstance e HTTPError
     then Logger_error lg ("HTTP error occurred while fetching page: " +:+ exc_str e);;
          raise e
     else if isinstance e RequestException
     then Logger_error lg ("Request error occurred while fetching page: " +:+ exc_str e);;
          raise e
     else raise e) w'
    = fail e w').
  { intros e w'. unfold fail, page_prefix, mbind, M_bind, Logger_error, raise.
    destruct (isinstance e HTTPError) eqn:Hhttp.
    - rewrite (isinstance_HTTPError e Hhttp), Logger_log_returns. reflexivity.
    - destruct (isinstance e RequestException); [| reflexivity].
      rewrite Logger_log_returns. reflexivity. }
  unfold AbstractScraper._fetch_page, mbind, M_bind, try_except, time,
    Session_get, Session_request. simpl. fold lg rq w1.
  destruct (send (length (wire w)) rq) as [r|e]; [| apply Hfail].
  rewrite raise_for_status_run.
  destruct (Response_ok r); [| apply Hfail].
  rewrite log_and_trace_returns. reflexivity.
Qed.

Lemma _parse_html_run (self : AbstractScraper.t) (html_content : string) (w : World) :
  AbstractScraper._parse_html self html_content w =
    match html_parser html_content with
    | Ok tree => (Ok tree, w)
    | Raise e =>
        (Raise (mk_exn ValueError ("Invalid HTML content: " +:+ exc_str e)),
         (Logger_error (AbstractScraper.logger self)
            ("Error while parsing HTML: " +:+ exc_str e) w).2)
    end.
Proof.
  unfold AbstractScraper._parse_html, mbind, M_bind, try_except, BeautifulSoup, mret, M_ret.
  destruct (html_parser html_content) as [tree|e]; [reflexivity |].
  unfold Logger_error, raise. rewrite Logger_log_returns. reflexivity.
Qed.

(** What a configured logger does with the instrumentation call. *)
Lemma log_and_trace_configured (logger name : string) (start_time : float)
    (r : Response) (w : World) :
  configured w logger → Response_ok r = true →
  let ev := mk_LogRecord logger INFO
              (trace_line name (float_sub (time_time (clock w)) start_time)
                 (Some (status_code r)))
              (time_time (S (clock w))) in
  (log_and_trace logger name start_time (Some r) w).2 =
    mk_World (loggerDict w) (handled w ++ [ev])
      (stderr w ++ callHandlers (logger_at w logger) ev)
      (wire w) (S (S (clock w))) (next_id w).
Proof.
  intros Hcfg Hok ev. unfold log_and_trace, mbind, M_bind, time, Logger_info. simpl.
  rewrite Hok, Logger_log_configured by still_configured w. reflexivity.
Qed.

(** One call of [log_and_trace] on a configured logger: it returns, and it
    records one informational line; the status code is in the line when a
    response is given and its status is not an error status. *)
Lemma log_and_trace_records (logger name : string) (start_time : float)
    (response : option Response) (w : World) :
  configured w logger →
  let run := log_and_trace logger name start_time response w in
  let code := match response with
              | Some r => if Response_ok r then Some (status_code r) else None
              | None => None
              end in
  run.1 = Ok ()
  ∧ new_records w run.2 =
      [mk_LogRecord logger INFO
         (trace_line name (float_sub (time_time (clock w)) start_time) code)
         (time_time (S (clock w)))].
Proof.
  intros Hcfg run code. subst run. rewrite log_and_trace_returns.
  split; [reflexivity |]. simpl.
  unfold log_and_trace, mbind, M_bind, time, Logger_info. simpl.
  destruct response as [r|]; [destruct (Response_ok r) |];
    rewrite Logger_log_configured by still_configured w; by apply new_records_app.
Qed.

Lemma Logger_error_configured (logger msg : string) (w : World) :
  configured w logger →
  let ev := mk_LogRecord logger ERROR msg (time_time (clock w)) in
  (Logger_error logger msg w).2 =
    mk_World (loggerDict w) (handled w ++ [ev])
      (stderr w ++ callHandlers (logger_at w logger) ev)
      (wire w) (S (clock w)) (next_id w).
Proof.
  intros Hcfg ev. unfold Logger_error.
  rewrite Logger_log_configured by still_configured w. reflexivity.
Qed.

(** Logging leaves the wire alone. *)
Lemma Logger_log_wire (logger : string) (level : Z) (msg : string) (w : World) :
  wire (Logger_log logger level msg w).2 = wire w.
Proof. unfold Logger_log. destruct (isEnabledFor _ _); reflexivity. Qed.

Lemma log_and_trace_wire (logger name : string) (start_time : float)
    (response : option Response) (w : World) :
  wire (log_and_trace logger name start_time response w).2 = wire w.
Proof.
  unfold log_and_trace, mbind, M_bind, time, Logger_info. simpl.
  destruct response as [r|]; [destruct (Response_ok r) |];
    rewrite Logger_log_wire; reflexivity.
Qed.

Lemma _make_request_wire (self : AbstractAPICollector.t) (method endpoint : string)
    (params : option (gmap string string)) (data : option json) (w : World) :
  wire (AbstractAPICollector._make_request self method endpoint params data w).2 =
    wire w ++ [api_request self method endpoint params data].
Proof.
  rewrite _make_request_run. unfold Logger_error.
  repeat case_match; simpl;
    rewrite ?Logger_log_wire, ?log_and_trace_wire; reflexivity.
Qed.

Lemma _fetch_page_wire (self : AbstractScraper.t) (endpoint : string)
    (params : option (gmap string string)) (w : World) :
  wire (AbstractScraper._fetch_page self endpoint params w).2 =
    wire w ++ [page_request self endpoint params].
Proof.
  rewrite _fetch_page_run. unfold Logger_error.
  repeat case_match; simpl;
    rewrite ?Logger_log_wire, ?log_and_trace_wire; reflexivity.
Qed.

Lemma exchange_inv (w w' : World) (rq : Request json) (out : Result Response) :
  wire w' = wire w ++ [rq] → exchange w w' out → send (length (wire w)) rq = out.
Proof.
  intros Hw (rq' & Hw' & Hsend). rewrite Hw in Hw'.
  apply app_inj_tail in Hw' as [_ ->]. exact Hsend.
Qed.

(** [configure_logger] returns the logger of that name and touches nothing
    but the registry. *)
Lemma configure_logger_frame (name : string) (w : World) :
  let run := configure_logger name w in
  run.1 = Ok name ∧ handled run.2 = handled w ∧ stderr run.2 = stderr w
  ∧ wire run.2 = wire w ∧ clock run.2 = clock w.
Proof.
  unfold configure_logger, mbind, M_bind, mret, M_ret, getLogger, setLevel,
    StreamHandler, addHandler. simpl.
  destruct (loggerDict w !! name); simpl; case_bool_decide; simpl; repeat split.
Qed.

(** The records a call leaves when its logger is configured. *)
Lemma _make_request_records (self : AbstractAPICollector.t) (method endpoint : string)
    (params : option (gmap string string)) (data : option json) (w : World) :
  let lg := AbstractAPICollector.logger self in
  let c := clock w in
  let failure e t := mk_LogRecord lg ERROR (api_prefix e +:+ exc_str e) (time_time t) in
  configured w lg →
  handled (AbstractAPICollector._make_request self method endpoint params data w).2 =
    handled w ++
    match send (length (wire w)) (api_request self method endpoint params data) with
    | Raise e => [failure e (S c)]
    | Ok r =>
        if Response_ok r then
          mk_LogRecord lg INFO
            (trace_line "_make_request" (float_sub (time_time (S c)) (time_time c))
               (Some (status_code r)))
            (time_time (S (S c)))
          :: match json_loads (text r) with
             | Ok _ => []
             | Raise e => [failure e (S (S (S c)))]
             end
        else [failure (mk_exn HTTPError (http_error_msg r)) (S c)]
    end.
Proof.
  intros lg c failure Hcfg. rewrite _make_request_run.
  destruct (send _ _) as [r|e]; [destruct (Response_ok r) eqn:Hok |]; simpl.
  - rewrite log_and_trace_configured by still_configured w.
    destruct (json_loads (text r)) as [j|e]; simpl.
    + reflexivity.
    + rewrite Logger_error_configured by still_configured w.
      simpl. rewrite <- app_assoc. reflexivity.
  - rewrite Logger_error_configured by still_configured w.
    reflexivity.
  - rewrite Logger_error_configured by still_configured w.
    reflexivity.
Qed.

Lemma _fetch_page_records (self : AbstractScraper.t) (endpoint : string)
    (params : option (gmap string string)) (w : World) :
  let lg := AbstractScraper.logger self in
  let c := clock w in
  let failure e :=
    if isinstance e RequestException
    then [mk_LogRecord lg ERROR (page_prefix e +:+ exc_str e) (time_time (S c))]
    else [] in
  configured w lg →
  handled (AbstractScraper._fetch_page self endpoint params w).2 =
    handled w ++
    match send (length (wire w)) (page_request self endpoint params) with
    | Raise e => failure e
    | Ok r =>
        if Response_ok r then
          [mk_LogRecord lg INFO
             (trace_line "_fetch_page" (float_sub (time_time (S c)) (time_time c))
                (Some (status_code r)))
             (time_time (S (S c)))]
        else failure (mk_exn HTTPError (http_error_msg r))
    end.
Proof.
  intros lg c failure Hcfg. rewrite _fetch_page_run.
  assert (Hfail : ∀ e,
    handled
      (if isinstance e RequestException
       then (Raise e : Result string,
             (Logger_error lg (page_prefix e +:+ exc_str e)
                (mk_World (loggerDict w) (handled w) (stderr w)
                   (wire w ++ [page_request self endpoint params]) (S (clock w))
                   (next_id w))).2)
       else (Raise e,
             mk_World (loggerDict w) (handled w) (stderr w)
               (wire w ++ [page_request self endpoint params]) (S (clock w))
               (next_id w))).2 = handled w ++ failure e).
  { intros e. unfold failure. destruct (isinstance e RequestException); simpl.
    - rewrite Logger_error_configured by still_configured w.
      reflexivity.
    - simpl. by rewrite app_nil_r. }
  destruct (send _ _) as [r|e]; [destruct (Response_ok r) eqn:Hok |].
  - simpl. rewrite log_and_trace_configured by still_configured w.
    reflexivity.
  - apply Hfail.
  - apply Hfail.
Qed.

(** What a call returns or raises is the classified outcome of its exchange. *)
Lemma _make_request_result (self : AbstractAPICollector.t) (method endpoint : string)
    (params : option (gmap string string)) (data : option json) (w : World) :
  (AbstractAPICollector._make_request self method endpoint params data w).1 =
    classified (λ r, json_loads (text r))
      (send (length (wire w)) (api_request self method endpoint params data)).
Proof.
  rewrite _make_request_run. unfold classified.
  destruct (send _ _) as [r|e]; [destruct (Response_ok r) |]; try reflexivity.
  destruct (json_loads (text r)); reflexivity.
Qed.

Lemma _fetch_page_result (self : AbstractScraper.t) (endpoint : string)
    (params : option (gmap string string)) (w : World) :
  (AbstractScraper._fetch_page self endpoint params w).1 =
    classified (λ r, Ok (text r))
      (send (length (wire w)) (page_request self endpoint params)).
Proof.
  rewrite _fetch_page_run. unfold classified.
  destruct (send _ _) as [r|e]; [destruct (Response_ok r) |]; try reflexivity.
  destruct (isinstance e RequestException); reflexivity.
Qed.
End Runs.

(** ** Dispatch and fetch *)
Section Calls.
Context `{Platform}.

(** C6.  Every call of [_fetch_page] puts one request on the wire, a GET
    with a timeout of 10 seconds, and every call of [_make_request] puts one
    request on the wire with no timeout; constructing an instance and parsing
    a document put nothing on the wire, so the bound of the fetch path is the
    only timeout there is. *)
Theorem timeout_only_in_fetch_page
    (scraper : AbstractScraper.t) (collector : AbstractAPICollector.t)
    (method endpoint cls_name base_url html_content : string)
    (params : option (gmap string string)) (data : option json)
    (api_key username password user_agent : option string) (w : World) :
  (∃ rq, wire (AbstractScraper._fetch_page scraper endpoint params w).2 = wire w ++ [rq]
         ∧ rq_method rq = "GET" ∧ rq_timeout rq = Some 10)
  ∧ (∃ rq, wire (AbstractAPICollector._make_request collector method endpoint params data w).2
             = wire w ++ [rq]
           ∧ rq_timeout rq = None)
  ∧ wire (AbstractScraper._parse_html scraper html_content w).2 = wire w
  ∧ wire (AbstractScraper.__init__ cls_name base_url user_agent params w).2 = wire w
  ∧ wire (AbstractAPICollector.__init__ cls_name base_url api_key username password w).2
      = wire w.
Proof.
  repeat split.
  - exists (page_request scraper endpoint params).
    rewrite _fetch_page_wire. repeat split; reflexivity.
  - exists (api_request collector method endpoint params data).
    rewrite _make_request_wire. split; reflexivity.
  - rewrite _parse_html_run. destruct (html_parser html_content); [reflexivity |].
    apply Logger_log_wire.
  - unfold AbstractScraper.__init__, mbind, M_bind.
    destruct (configure_logger_frame cls_name w) as (Hret & _ & _ & Hwire & _).
    destruct (configure_logger cls_name w) as [[lg|e] w']; simpl in *; congruence.
  - unfold AbstractAPICollector.__init__, mbind, M_bind.
    destruct (configure_logger_frame cls_name w) as (Hret & _ & _ & Hwire & _).
    destruct (configure_logger cls_name w) as [[lg|e] w']; simpl in *; congruence.
Qed.

(** C4.  When the server answers a call of [_make_request] or of
    [_fetch_page] with a status in [400,599], the call raises an [HTTPError];
    when it answers with a status in [200,399], [_make_request] returns the
    decoded body, provided the body decodes, and [_fetch_page] returns the
    text of the body. *)
Theorem status_classification
    (collector : AbstractAPICollector.t) (scraper : AbstractScraper.t)
    (method endpoint : string) (params : option (gmap string string))
    (data : option json) (w : World) (r : Response) :
  let api := AbstractAPICollector._make_request collector method endpoint params data w in
  let page := AbstractScraper._fetch_page scraper endpoint params w in
  (exchange w api.2 (Ok r) →
     (400 ≤ status_code r ≤ 599 → ∃ m, api.1 = Raise (mk_exn HTTPError m))
     ∧ (200 ≤ status_code r ≤ 399 → ∀ j, json_loads (text r) = Ok j → api.1 = Ok j))
  ∧ (exchange w page.2 (Ok r) →
     (400 ≤ status_code r ≤ 599 → ∃ m, page.1 = Raise (mk_exn HTTPError m))
     ∧ (200 ≤ status_code r ≤ 399 → page.1 = Ok (text r))).
Proof.
  intros api page. split; intros Hex.
  - apply (exchange_inv _ _ _ _ (_make_request_wire _ _ _ _ _ _)) in Hex.
    subst api. rewrite _make_request_run, Hex. split.
    + intros Hrange. apply Response_ok_range in Hrange. rewrite Hrange. eauto.
    + intros Hrange j Hj.
      destruct (Response_ok r) eqn:Hok; [rewrite Hj; reflexivity |].
      apply Response_ok_range in Hok. lia.
  - apply (exchange_inv _ _ _ _ (_fetch_page_wire _ _ _ _)) in Hex.
    subst page. rewrite _fetch_page_run, Hex. split.
    + intros Hrange. apply Response_ok_range in Hrange. rewrite Hrange. simpl. eauto.
    + intros Hrange.
      destruct (Response_ok r) eqn:Hok; [reflexivity |].
      apply Response_ok_range in Hok. lia.
Qed.


(** C2, as the code has it.  A call of [_make_request] records an
    instrumentation event exactly when the response passed the status check:
    then there is exactly one, with the operation name, the elapsed time and
    the status code, whether or not the body decodes afterwards.  When the
    transport fails or the status is in [400,599] no instrumentation event is
    recorded. *)
Theorem instrumentation_after_status_check
    (collector : AbstractAPICollector.t) (method endpoint : string)
    (params : option (gmap string string)) (data : option json)
    (w : World) (out : Result Response) :
  let run := AbstractAPICollector._make_request collector method endpoint params data w in
  let lg := AbstractAPICollector.logger collector in
  let c := clock w in
  configured w lg →
  exchange w run.2 out →
  events_logged w run.2 =
    match out with
    | Ok r =>
        if Response_ok r then
          [mk_LogRecord lg INFO
             (trace_line "_make_request" (float_sub (time_time (S c)) (time_time c))
                (Some (status_code r)))
             (time_time (S (S c)))]
        else []
    | Raise _ => []
    end.
Proof.
  intros run lg c Hcfg Hex.
  apply (exchange_inv _ _ _ _ (_make_request_wire _ _ _ _ _ _)) in Hex.
  unfold events_logged. subst run.
  rewrite (new_records_app _ _ _ (_make_request_records _ _ _ _ _ _ Hcfg)), Hex.
  destruct out as [r|e]; [destruct (Response_ok r) |]; try reflexivity.
  destruct (json_loads (text r)); reflexivity.
Qed.

(** C5, as the code has it.  A call issues one request and its result is the
    classified outcome of that exchange: a failure reaches the caller as the
    exception that was raised, with no second attempt and no value in its
    place.  Every failure of [_make_request], and every failure of
    [_fetch_page] that is a [RequestException], is recorded once at error
    level, with the message of the exception, as the last record before the
    exception leaves the call; any other failure of [_fetch_page] leaves the
    call with nothing logged. *)
Theorem failures_logged_and_reraised
    (collector : AbstractAPICollector.t) (scraper : AbstractScraper.t)
    (method endpoint : string) (params : option (gmap string string))
    (data : option json) (w : World) :
  let api := AbstractAPICollector._make_request collector method endpoint params data w in
  let page := AbstractScraper._fetch_page scraper endpoint params w in
  configured w (AbstractAPICollector.logger collector) →
  configured w (AbstractScraper.logger scraper) →
  (∃ rq, wire api.2 = wire w ++ [rq]
     ∧ api.1 = classified (λ r, json_loads (text r)) (send (length (wire w)) rq)
     ∧ ∀ e, api.1 = Raise e →
         ∃ t, let failure := mk_LogRecord (AbstractAPICollector.logger collector) ERROR
                               (api_prefix e +:+ exc_str e) t in
              errors_logged w api.2 = [failure] ∧ last (handled api.2) = Some failure)
  ∧ (∃ rq, wire page.2 = wire w ++ [rq]
     ∧ page.1 = classified (λ r, Ok (text r)) (send (length (wire w)) rq)
     ∧ ∀ e, page.1 = Raise e →
         if isinstance e RequestException then
           ∃ t, let failure := mk_LogRecord (AbstractScraper.logger scraper) ERROR
                                 (page_prefix e +:+ exc_str e) t in
                errors_logged w page.2 = [failure] ∧ last (handled page.2) = Some failure
         else silent w page.2).
Proof.
  intros api page Hapi Hpage. split.
  - exists (api_request collector method endpoint params data).
    split; [apply _make_request_wire |]. split; [apply _make_request_result |].
    intros e He. unfold errors_logged.
    pose proof (_make_request_records collector method endpoint params data w Hapi) as Hrec.
    subst api. rewrite _make_request_result in He. rewrite Hrec.
    rewrite (new_records_app _ _ _ Hrec). unfold classified in He.
    destruct (send _ _) as [r|e']; [destruct (Response_ok r) |]; simplify_eq.
    + destruct (json_loads (text r)); simplify_eq. eexists. split; [reflexivity |].
      change [?a; ?b] with ([a] ++ [b]). rewrite app_assoc. apply last_snoc.
    + eexists. split; [reflexivity | apply last_snoc].
    + eexists. split; [reflexivity | apply last_snoc].
  - exists (page_request scraper endpoint params).
    split; [apply _fetch_page_wire |]. split; [apply _fetch_page_result |].
    intros e He. subst page. rewrite _fetch_page_result in He. unfold classified in He.
    destruct (isinstance e RequestException) eqn:Hreq.
    + unfold errors_logged.
      pose proof (_fetch_page_records scraper endpoint params w Hpage) as Hrec.
      rewrite Hrec, (new_records_app _ _ _ Hrec).
      destruct (send _ _) as [r|e']; [destruct (Response_ok r) |]; simplify_eq;
        rewrite ?Hreq; eexists; (split; [reflexivity | apply last_snoc]).
    + rewrite _fetch_page_run.
      destruct (send _ _) as [r|e']; [destruct (Response_ok r) |]; simplify_eq.
      rewrite Hreq. split; reflexivity.
Qed.

End Calls.

(** ** Construction *)
Section Construction.
Context `{Platform}.

Lemma truthy_str_Some (s : string) : s ≠ "" → truthy_str (Some s) = true.
Proof. intros Hs. simpl. apply negb_true_iff, String.eqb_neq, Hs. Qed.

(** C1, as the code has it.  The two authentication settings are applied
    independently of each other: a collector constructed with a token and
    with a username and a password, none of them empty, is constructed
    without error and its session carries the bearer header and basic
    authentication, both. *)
Theorem token_and_credentials_both_attached
    (cls_name base_url token username password : string) (w : World) :
  token ≠ "" → username ≠ "" → password ≠ "" →
  ∃ self, (AbstractAPICollector.__init__ cls_name base_url (Some token) (Some username)
             (Some password) w).1 = Ok self
          ∧ session_headers (AbstractAPICollector.session self) !! "Authorization"
              = Some ("Bearer " +:+ token)
          ∧ session_auth (AbstractAPICollector.session self) = Some (username, password).
Proof.
  intros Ht Hu Hp.
  destruct (configure_logger_frame cls_name w) as (Hret & _).
  unfold AbstractAPICollector.__init__, mbind, M_bind.
  destruct (configure_logger cls_name w) as [[lg|e] w']; simpl in Hret; [| discriminate].
  eexists. split; [reflexivity |].
  unfold AbstractAPICollector._configure_session.
  cbn [AbstractAPICollector.api_key AbstractAPICollector.username
       AbstractAPICollector.password AbstractAPICollector.session].
  rewrite !truthy_str_Some by assumption. simpl.
  split; [apply lookup_insert_eq | reflexivity].
Qed.

(** C8.  A collector constructed with a username and no password, or with a
    password and no username, is constructed without error and its session
    carries no basic authentication. *)
Theorem partial_credentials_inert
    (cls_name base_url : string) (api_key username password : option string)
    (w : World) :
  (is_Some username ∧ password = None) ∨ (username = None ∧ is_Some password) →
  ∃ self, (AbstractAPICollector.__init__ cls_name base_url api_key username password w).1
            = Ok self
          ∧ session_auth (AbstractAPICollector.session self) = None.
Proof.
  intros Hpartial.
  destruct (configure_logger_frame cls_name w) as (Hret & _).
  unfold AbstractAPICollector.__init__, mbind, M_bind.
  destruct (configure_logger cls_name w) as [[lg|e] w']; simpl in Hret; [| discriminate].
  eexists. split; [reflexivity |]. simpl.
  unfold AbstractAPICollector._configure_session. simpl.
  assert (truthy_str username && truthy_str password = false) as ->.
  { destruct Hpartial as [[_ ->] | [-> _]]; simpl; [apply andb_false_r | reflexivity]. }
  destruct (truthy_str api_key); reflexivity.
Qed.
End Construction.

(** ** The logger registry *)
Section Registry.
Context `{Platform}.

Lemma filter_keeps_all {A : Type} (P : A → Prop) `{∀ x, Decision (P x)} (l : list A) :
  Forall P l → filter P l = l.
Proof.
  induction 1 as [|x l Hx _ IH]; [reflexivity |].
  rewrite filter_cons_True by assumption. by rewrite IH.
Qed.

Lemma fresh_handler_new (w : World) (name : string) :
  handlers_known w → fresh_handler w ∉ lg_handlers (logger_at w name).
Proof.
  intros Hknown Hin. unfold logger_at in Hin.
  destruct (loggerDict w !! name) as [l|] eqn:Hl; simpl in Hin.
  - apply (Hknown name l _ Hl) in Hin. simpl in Hin. lia.
  - by apply not_elem_of_nil in Hin.
Qed.

Lemma configure_logger_run (name : string) (w : World) :
  handlers_known w →
  configure_logger name w =
    (Ok name,
     mk_World
       (<[name := mk_Logger INFO (lg_handlers (logger_at w name) ++ [fresh_handler w])]>
          (loggerDict w))
       (handled w) (stderr w) (wire w) (clock w) (S (next_id w))).
Proof.
  intros Hknown. pose proof (fresh_handler_new w name Hknown) as Hnew.
  unfold configure_logger, mbind, M_bind, mret, M_ret, getLogger, setLevel,
    StreamHandler, addHandler, setFormatter, set_loggerDict, logger_at in *.
  destruct (loggerDict w !! name) as [l|] eqn:Hl; simpl in *.
  - rewrite Hl, lookup_insert_eq. simpl.
    rewrite bool_decide_eq_false_2 by exact Hnew. simpl.
    rewrite insert_insert_eq. reflexivity.
  - rewrite lookup_insert_eq. simpl. rewrite lookup_insert_eq. simpl.
    rewrite !insert_insert_eq. reflexivity.
Qed.

Lemma configure_logger_known (name : string) (w : World) :
  handlers_known w → handlers_known (configure_logger name w).2.
Proof.
  intros Hknown. rewrite configure_logger_run by assumption.
  intros name' l h Hl Hin. simpl in *.
  destruct (decide (name = name')) as [<-|Hne].
  - rewrite lookup_insert_eq in Hl. simplify_eq. simpl in Hin.
    apply elem_of_app in Hin as [Hin|Hin].
    + unfold logger_at in Hin.
      destruct (loggerDict w !! name) as [l|] eqn:Hl; simpl in Hin.
      * pose proof (Hknown name l h Hl Hin). lia.
      * by apply not_elem_of_nil in Hin.
    + apply list_elem_of_singleton in Hin as ->. simpl. lia.
  - rewrite lookup_insert_ne in Hl by assumption.
    pose proof (Hknown name' l h Hl Hin). lia.
Qed.

Lemma configure_logger_at (name name' : string) (w : World) :
  handlers_known w →
  logger_at (configure_logger name w).2 name' =
    if decide (name = name')
    then mk_Logger INFO (lg_handlers (logger_at w name) ++ [fresh_handler w])
    else logger_at w name'.
Proof.
  intros Hknown. rewrite configure_logger_run by assumption.
  unfold logger_at at 1. simpl. rewrite lookup_insert.
  destruct (decide (name = name')); reflexivity.
Qed.

(** After a series of calls the logger of [name] has one more handler per
    call made with that name; the handlers added admit every level, and the
    calls wrote nothing. *)
Lemma configure_all_handlers (names : list string) (name : string) (w : World) :
  handlers_known w →
  let w' := (configure_all names w).2 in
  ∃ added,
    lg_handlers (logger_at w' name) = lg_handlers (logger_at w name) ++ added
    ∧ length added = length (filter (λ n, n = name) names)
    ∧ Forall (λ h, h_level h = NOTSET) added
    ∧ lg_level (logger_at w' name) =
        match added with [] => lg_level (logger_at w name) | _ => INFO end
    ∧ stderr w' = stderr w.
Proof.
  revert w. induction names as [|n rest IH]; intros w Hknown; simpl.
  - exists []. rewrite app_nil_r. repeat split; constructor.
  - unfold mbind, M_bind.
    pose proof (configure_logger_run n w Hknown) as Hrun.
    pose proof (configure_logger_known n w Hknown) as Hknown'.
    pose proof (configure_logger_at n name w Hknown) as Hat.
    destruct (configure_logger n w) as [[lg|e] w1] eqn:Hcfg; [| discriminate].
    simpl in Hknown', Hat.
    destruct (IH w1 Hknown') as (added & Hhs & Hlen & Hall & Hlevel & Herr).
    assert (Hstderr : stderr w1 = stderr w) by (by simplify_eq).
    rewrite filter_cons. destruct (decide (n = name)) as [->|Hne].
    + exists (fresh_handler w :: added). rewrite Hhs, Hlevel, Hat. simpl.
      repeat split.
      * by rewrite <- app_assoc.
      * by rewrite Hlen.
      * by constructor.
      * by destruct added.
      * congruence.
    + exists added. rewrite Hhs, Hlevel, Hat. repeat split; try done. congruence.
Qed.

Lemma configure_all_lookup_other (names : list string) (other : string) (w : World) :
  handlers_known w → other ∉ names →
  loggerDict (configure_all names w).2 !! other = loggerDict w !! other.
Proof.
  revert w. induction names as [|n rest IH]; intros w Hknown Hother; [reflexivity |].
  apply not_elem_of_cons in Hother as [Hne Hrest]. simpl. unfold mbind, M_bind.
  pose proof (configure_logger_run n w Hknown) as Hrun.
  pose proof (configure_logger_known n w Hknown) as Hknown'.
  destruct (configure_logger n w) as [[lg|e] w1]; [| discriminate].
  simpl in Hknown'. rewrite (IH w1 Hknown' Hrest). simplify_eq. simpl.
  by rewrite lookup_insert_ne.
Qed.

(** C9.  [configure_logger] adds a handler at every call.  Take a logger
    named after a class (no dot in the name, not the root logger), starting
    without handlers, in an interpreter where nobody has asked for the root
    logger.  After a series of calls, none of them for the root logger, of
    which [k] are made with that name, the logger holds [k] handlers; the
    root logger is still untouched; and if [k] is positive every later log
    event at informational level or above is written [k] times. *)
Theorem configure_logger_accumulates_handlers
    (names : list string) (name : string) (w : World) (k : nat) :
  top_level_name name →
  root_untouched w →
  Forall (λ n, ¬ is_root_name n) names →
  handlers_known w →
  lg_handlers (logger_at w name) = [] →
  length (filter (λ n, n = name) names) = k →
  let w' := (configure_all names w).2 in
  length (lg_handlers (logger_at w' name)) = k
  ∧ root_untouched w'
  ∧ ((0 < k)%nat → ∀ level msg, INFO ≤ level →
       length (new_lines w' (Logger_log name level msg w').2) = k).
Proof.
  intros _ Hroot Hnames Hknown Hnone Hk w'.
  destruct (configure_all_handlers names name w Hknown)
    as (added & Hhs & Hlen & Hall & Hlevel & _).
  fold w' in Hhs, Hlevel. rewrite Hnone in Hhs. simpl in Hhs.
  split; [rewrite Hhs; congruence |]. split.
  { intros r Hr. subst w'. rewrite configure_all_lookup_other; [by apply Hroot | done |].
    intros Hin. by apply (proj1 (Forall_forall _ _) Hnames r Hin). }
  intros Hpos level msg Hle.
  assert (Hcfg : configured w' name).
  { unfold configured. rewrite Hlevel. destruct added; [simpl in *; lia | reflexivity]. }
  rewrite Logger_log_configured by assumption.
  erewrite new_lines_app by reflexivity.
  unfold callHandlers. rewrite Hhs.
  destruct added as [|h added]; [simpl in *; lia |].
  rewrite length_fmap, filter_keeps_all; [congruence |].
  eapply Forall_impl; [exact Hall |]. simpl. intros h' ->. unfold NOTSET, INFO in *. lia.
Qed.
End Registry.

(** ** Concrete runs on the platform [Demo] *)

Example demo_constructors :
  (AbstractAPICollector.__init__ "UserCollector" "https://api.example.com"
     (Some "s3cr3t") None None initial_world).1 = Ok Demo.collector
  ∧ (AbstractScraper.__init__ "PageScraper" "https://api.example.com" None None
       (AbstractAPICollector.__init__ "UserCollector" "https://api.example.com"
          (Some "s3cr3t") None None initial_world).2).1 = Ok Demo.scraper.
Proof. split; vm_compute; reflexivity. Qed.

Lemma demo_configured :
  configured Demo.world "UserCollector" ∧ configured Demo.world "PageScraper".
Proof. split; vm_compute; reflexivity. Qed.

(** A resource that exists: the decoded body is returned and one line is
    written, with the status. *)
Example dispatch_found :
  let run := AbstractAPICollector._make_request Demo.collector "GET" "users/1" None None
               Demo.world in
  run.1 = Ok "[1, 2, 3]"
  ∧ new_lines Demo.world run.2 =
      ["t=0.50 - UserCollector - INFO - _make_request completed in 0.25s with status code 200"].
Proof. split; vm_compute; reflexivity. Qed.

(** A missing resource: [HTTPError], and the only line written is the error. *)
Example dispatch_missing :
  let run := AbstractAPICollector._make_request Demo.collector "GET" "missing" None None
               Demo.world in
  run.1 = Raise (mk_exn HTTPError
                   "404 Client Error: Not Found for url: https://api.example.com/missing")
  ∧ new_lines Demo.world run.2 =
      ["t=0.25 - UserCollector - ERROR - HTTP error occurred: 404 Client Error: Not Found for url: https://api.example.com/missing"].
Proof. split; vm_compute; reflexivity. Qed.

(** A page: the text of the body comes back unparsed. *)
Example fetch_page_found :
  let run := AbstractScraper._fetch_page Demo.scraper "page" None Demo.world in
  run.1 = Ok "<html><a href=/x>l</a></html>"
  ∧ new_lines Demo.world run.2 =
      ["t=0.50 - PageScraper - INFO - _fetch_page completed in 0.25s with status code 200"].
Proof. split; vm_compute; reflexivity. Qed.

(** C7 at a response with an error status.  The caller supplies a response,
    yet the line carries no status code: the test [if response:] asks for the
    truth value of the response, which is false for a status in [400,599]. *)
Example log_and_trace_drops_error_status :
  let run := log_and_trace "UserCollector" "fetch_data" (-150) (Some Demo.not_found)
               Demo.world in
  run.1 = Ok ()
  ∧ new_records Demo.world run.2 =
      [mk_LogRecord "UserCollector" INFO "fetch_data completed in 1.50s" 25]
  ∧ new_lines Demo.world run.2 =
      ["t=0.25 - UserCollector - INFO - fetch_data completed in 1.50s"].
Proof. repeat split; vm_compute; reflexivity. Qed.

(** The same call with a response that passed the status check. *)
Example log_and_trace_keeps_success_status :
  new_lines Demo.world
    (log_and_trace "UserCollector" "fetch_data" (-150)
       (Some (mk_Response 200 "OK" "https://api.example.com/users/1" "[1, 2, 3]"))
       Demo.world).2 =
    ["t=0.25 - UserCollector - INFO - fetch_data completed in 1.50s with status code 200"].
Proof. vm_compute; reflexivity. Qed.

(** *** Where the code departs from a statement of the specification *)

(** C1: with a token and a full pair of credentials the session also carries
    basic authentication; it is not restricted to the bearer header. *)
Lemma both_credentials_not_token_only :
  ∃ self, (AbstractAPICollector.__init__ "UserCollector" "https://api.example.com"
             (Some "s3cr3t") (Some "ada") (Some "pw") initial_world).1 = Ok self
          ∧ session_auth (AbstractAPICollector.session self) = Some ("ada", "pw")
          ∧ ¬ token_only (AbstractAPICollector.session self) "s3cr3t".
Proof.
  eexists. split; [vm_compute; reflexivity |]. split; [reflexivity |].
  intros [_ Hauth]. vm_compute in Hauth. discriminate.
Qed.

(** C2: a call answered with status 404 raises and records no instrumentation
    event at all. *)
Lemma dispatch_missing_not_instrumented :
  let run := AbstractAPICollector._make_request Demo.collector "GET" "missing" None None
               Demo.world in
  (∃ m, run.1 = Raise (mk_exn HTTPError m))
  ∧ ¬ ∃ event, events_logged Demo.world run.2 = [event].
Proof.
  split.
  - eexists. vm_compute. reflexivity.
  - intros [event Hevent]. vm_compute in Hevent. discriminate.
Qed.


(** C5: a failure of [_fetch_page] that is not a [RequestException] reaches
    the caller with no error line logged. *)
Lemma fetch_page_unexpected_not_logged :
  let run := AbstractScraper._fetch_page Demo.scraper "odd" None Demo.world in
  run.1 = Raise (mk_exn ValueError "label empty or too long")
  ∧ ¬ ∃ failure, errors_logged Demo.world run.2 = [failure].
Proof.
  split.
  - vm_compute. reflexivity.
  - intros [failure Hfailure]. vm_compute in Hfailure. discriminate.
Qed.

(** *** The general statements at concrete inputs *)

(** In a fresh interpreter nobody has asked for the root logger. *)
Lemma demo_root_untouched : root_untouched initial_world.
Proof. intros name _. apply lookup_empty. Qed.

(** A fresh interpreter holds no handler. *)
Lemma demo_handlers_known : handlers_known initial_world.
Proof. intros name l h Hl. simpl in Hl. rewrite lookup_empty in Hl. discriminate. Qed.

(** C4 on the server of [Demo]: the missing page and the resource. *)
Lemma status_classification_demo :
  (∃ m, (AbstractAPICollector._make_request Demo.collector "GET" "missing" None None
           Demo.world).1 = Raise (mk_exn HTTPError m))
  ∧ (∃ m, (AbstractScraper._fetch_page Demo.scraper "missing" None Demo.world).1
            = Raise (mk_exn HTTPError m))
  ∧ (AbstractAPICollector._make_request Demo.collector "GET" "users/1" None None
       Demo.world).1 = Ok "[1, 2, 3]"
  ∧ (AbstractScraper._fetch_page Demo.scraper "users/1" None Demo.world).1 = Ok "[1, 2, 3]".
Proof.
  pose proof (status_classification Demo.collector Demo.scraper "GET" "missing" None None
                Demo.world Demo.not_found) as [Hapi Hpage].
  pose proof (status_classification Demo.collector Demo.scraper "GET" "users/1" None None
                Demo.world
                (mk_Response 200 "OK" "https://api.example.com/users/1" "[1, 2, 3]"))
    as [Hapi' Hpage'].
  split; [| split; [| split]].
  - apply Hapi; [| simpl; lia].
    eexists. split; [apply _make_request_wire | vm_compute; reflexivity].
  - apply Hpage; [| simpl; lia].
    eexists. split; [apply _fetch_page_wire | vm_compute; reflexivity].
  - apply Hapi'; [| simpl; lia | reflexivity].
    eexists. split; [apply _make_request_wire | vm_compute; reflexivity].
  - apply Hpage'; [| simpl; lia].
    eexists. split; [apply _fetch_page_wire | vm_compute; reflexivity].
Defined.


(** C2 on the resource, and on the host that refuses the connection. *)
Lemma instrumentation_after_status_check_demo :
  events_logged Demo.world
    (AbstractAPICollector._make_request Demo.collector "GET" "users/1" None None
       Demo.world).2 =
    [mk_LogRecord "UserCollector" INFO
       "_make_request completed in 0.25s with status code 200" 50]
  ∧ events_logged Demo.world
      (AbstractAPICollector._make_request Demo.collector "GET" "down" None None
         Demo.world).2 = [].
Proof.
  split.
  - rewrite (instrumentation_after_status_check Demo.collector "GET" "users/1" None None
               Demo.world
               (Ok (mk_Response 200 "OK" "https://api.example.com/users/1" "[1, 2, 3]"))).
    + vm_compute. reflexivity.
    + apply demo_configured.
    + eexists. split; [apply _make_request_wire | vm_compute; reflexivity].
  - rewrite (instrumentation_after_status_check Demo.collector "GET" "down" None None
               Demo.world (Raise (mk_exn ConnectionError "Connection refused"))).
    + reflexivity.
    + apply demo_configured.
    + eexists. split; [apply _make_request_wire | vm_compute; reflexivity].
Defined.

(** C5 on the host that refuses the connection, and on the address the
    transport rejects. *)
Lemma failures_logged_and_reraised_demo :
  (∃ t, last (handled (AbstractAPICollector._make_request Demo.collector "GET" "down"
                         None None Demo.world).2)
          = Some (mk_LogRecord "UserCollector" ERROR
                    "Request error occurred: Connection refused" t))
  ∧ silent Demo.world (AbstractScraper._fetch_page Demo.scraper "odd" None Demo.world).2.
Proof.
  destruct (failures_logged_and_reraised Demo.collector Demo.scraper "GET" "down" None None
              Demo.world) as [(rq & _ & _ & Hapi) _]; [apply demo_configured .. |].
  destruct (failures_logged_and_reraised Demo.collector Demo.scraper "GET" "odd" None None
              Demo.world) as [_ (rq' & _ & _ & Hpage)]; [apply demo_configured .. |].
  split.
  - destruct (Hapi (mk_exn ConnectionError "Connection refused")) as (t & _ & Hlast).
    + vm_compute. reflexivity.
    + exists t. exact Hlast.
  - apply (Hpage (mk_exn ValueError "label empty or too long")). vm_compute. reflexivity.
Defined.


(** C1 with a token and a full pair of credentials. *)
Lemma token_and_credentials_both_attached_demo :
  ∃ self, (AbstractAPICollector.__init__ "UserCollector" "https://api.example.com"
             (Some "s3cr3t") (Some "ada") (Some "pw") initial_world).1 = Ok self
          ∧ session_headers (AbstractAPICollector.session self) !! "Authorization"
              = Some "Bearer s3cr3t"
          ∧ session_auth (AbstractAPICollector.session self) = Some ("ada", "pw").
Proof.
  apply (token_and_credentials_both_attached "UserCollector" "https://api.example.com"
           "s3cr3t" "ada" "pw" initial_world); discriminate.
Defined.

(** C8 with a username and no password. *)
Lemma partial_credentials_inert_demo :
  ∃ self, (AbstractAPICollector.__init__ "UserCollector" "https://api.example.com"
             None (Some "ada") None initial_world).1 = Ok self
          ∧ session_auth (AbstractAPICollector.session self) = None.
Proof.
  apply (partial_credentials_inert "UserCollector" "https://api.example.com"
           None (Some "ada") None initial_world).
  left. split; [eexists; reflexivity | reflexivity].
Defined.

(** C9 with two collectors of one class and a scraper in between. *)
Lemma configure_logger_accumulates_handlers_demo :
  let w' := (configure_all ["UserCollector"; "PageScraper"; "UserCollector"]
               initial_world).2 in
  length (lg_handlers (logger_at w' "UserCollector")) = 2%nat
  ∧ length (new_lines w' (Logger_log "UserCollector" ERROR "boom" w').2) = 2%nat.
Proof.
  destruct (configure_logger_accumulates_handlers
              ["UserCollector"; "PageScraper"; "UserCollector"] "UserCollector"
              initial_world 2) as (Hcount & _ & Hlines).
  - split; [reflexivity | intros [Hroot | Hroot]; discriminate].
  - exact demo_root_untouched.
  - repeat constructor; intros [Hroot | Hroot]; discriminate.
  - exact demo_handlers_known.
  - reflexivity.
  - vm_compute. reflexivity.
  - split; [exact Hcount |]. apply Hlines; [lia | done].
Defined.

(** * Further properties of the code *)

(** ** Sessions *)
Section Sessions.
Context `{Platform}.

Lemma truthy_str_false (o : option string) :
  truthy_str o = false ↔ o = None ∨ o = Some "".
Proof.
  destruct o as [s|]; simpl; [| by split; [left |]].
  rewrite negb_false_iff, String.eqb_eq. split.
  - intros ->. by right.
  - by intros [|[= ->]].
Qed.

Lemma api_init_run (cls_name base_url : string) (api_key username password : option string)
    (w : World) :
  AbstractAPICollector.__init__ cls_name base_url api_key username password w =
    (Ok (AbstractAPICollector.mk
           (AbstractAPICollector.mk_attrs base_url api_key username password)
           (AbstractAPICollector._configure_session
              (AbstractAPICollector.mk_attrs base_url api_key username password))
           cls_name),
     (configure_logger cls_name w).2).
Proof.
  destruct (configure_logger_frame cls_name w) as (Hret & _).
  unfold AbstractAPICollector.__init__, mbind, M_bind.
  destruct (configure_logger cls_name w) as [[lg|e] w']; simpl in *; by simplify_eq.
Qed.

Lemma scraper_init_run (cls_name base_url : string) (user_agent : option string)
    (proxies : option (gmap string string)) (w : World) :
  let agent := if truthy_str user_agent then default "" user_agent
               else "Mozilla/5.0 (compatible; AbstractScraper/1.0)" in
  AbstractScraper.__init__ cls_name base_url user_agent proxies w =
    (Ok (AbstractScraper.mk
           (AbstractScraper.mk_attrs base_url agent proxies)
           (AbstractScraper._configure_session
              (AbstractScraper.mk_attrs base_url agent proxies))
           cls_name),
     (configure_logger cls_name w).2).
Proof.
  intros agent. destruct (configure_logger_frame cls_name w) as (Hret & _).
  unfold AbstractScraper.__init__, mbind, M_bind. fold agent.
  destruct (configure_logger cls_name w) as [[lg|e] w']; simpl in *; by simplify_eq.
Qed.

Lemma api_session_auth (self : AbstractAPICollector.attrs) :
  session_auth (AbstractAPICollector._configure_session self) =
    if truthy_str (AbstractAPICollector.username self)
       && truthy_str (AbstractAPICollector.password self)
    then Some (default "" (AbstractAPICollector.username self),
               default "" (AbstractAPICollector.password self))
    else None.
Proof.
  unfold AbstractAPICollector._configure_session.
  destruct (truthy_str (AbstractAPICollector.api_key self)),
    (truthy_str (AbstractAPICollector.username self)
     && truthy_str (AbstractAPICollector.password self)); reflexivity.
Qed.

(** X1.  The session of a collector carries basic authentication exactly
    when both the username and the password are given and non-empty, and
    then it carries that very pair: an empty string counts as absent. *)
Theorem basic_auth_iff_both_given (self : AbstractAPICollector.attrs) (u p : string) :
  session_auth (AbstractAPICollector._configure_session self) = Some (u, p)
  ↔ AbstractAPICollector.username self = Some u
    ∧ AbstractAPICollector.password self = Some p ∧ u ≠ "" ∧ p ≠ "".
Proof.
  rewrite api_session_auth. split.
  - destruct (truthy_str (AbstractAPICollector.username self)) eqn:Hu; [| discriminate].
    destruct (truthy_str (AbstractAPICollector.password self)) eqn:Hp; [| discriminate].
    simpl. intros [= <- <-].
    destruct (AbstractAPICollector.username self) as [u|]; [| discriminate].
    destruct (AbstractAPICollector.password self) as [p|]; [| discriminate].
    simpl in *. apply negb_true_iff, String.eqb_neq in Hu, Hp. done.
  - intros (-> & -> & Hu & Hp). rewrite !truthy_str_Some by assumption. reflexivity.
Qed.

(** X2.  The session of a collector differs from a new session of the
    library in the [Authorization] header at most: that header is
    [Bearer <token>] when the token is given and non-empty, and is left as
    the library has it when the token is absent or empty. *)
Theorem bearer_header_only_for_token (self : AbstractAPICollector.attrs) :
  let s := AbstractAPICollector._configure_session self in
  (∀ k, k ≠ "Authorization" → session_headers s !! k = default_headers !! k)
  ∧ session_headers s !! "Authorization" =
      match AbstractAPICollector.api_key self with
      | Some token =>
          if decide (token = "") then default_headers !! "Authorization"
          else Some ("Bearer " +:+ token)
      | None => default_headers !! "Authorization"
      end
  ∧ session_proxies s = ∅.
Proof.
  intros s. subst s. unfold AbstractAPICollector._configure_session.
  destruct self as [base [token|] u p]; simpl.
  - destruct (String.eqb_spec token "") as [->|Hne]; simpl.
    + destruct (truthy_str u && truthy_str p); simpl; repeat split; reflexivity.
    + rewrite decide_False by assumption.
      destruct (truthy_str u && truthy_str p); simpl;
        (split; [intros k Hk; by rewrite lookup_insert_ne |]);
        (split; [apply lookup_insert_eq | reflexivity]).
  - destruct (truthy_str u && truthy_str p); simpl; repeat split; reflexivity.
Qed.

Lemma api_session_token (base_url token : string) (username password : option string) :
  token ≠ "" →
  session_headers
    (AbstractAPICollector._configure_session
       (AbstractAPICollector.mk_attrs base_url (Some token) username password))
    !! "Authorization" = Some ("Bearer " +:+ token).
Proof.
  intros Htoken. unfold AbstractAPICollector._configure_session.
  cbn [AbstractAPICollector.api_key AbstractAPICollector.username
       AbstractAPICollector.password].
  rewrite truthy_str_Some by assumption.
  destruct (truthy_str username && truthy_str password); apply lookup_insert_eq.
Qed.

Lemma api_session_no_auth (self : AbstractAPICollector.attrs) :
  AbstractAPICollector.username self = None ∨ AbstractAPICollector.username self = Some ""
  ∨ AbstractAPICollector.password self = None ∨ AbstractAPICollector.password self = Some "" →
  session_auth (AbstractAPICollector._configure_session self) = None.
Proof.
  intros Hpartial. rewrite api_session_auth.
  assert (truthy_str (AbstractAPICollector.username self)
          && truthy_str (AbstractAPICollector.password self) = false) as ->;
    [| reflexivity].
  apply andb_false_iff. rewrite !truthy_str_false. tauto.
Qed.

(** X3.  A collector constructed with a non-empty token, and with the
    username or the password absent or empty, authenticates with the bearer
    header alone. *)
Theorem token_alone_is_token_only (base_url token : string) (username password : option string) :
  token ≠ "" →
  username = None ∨ username = Some "" ∨ password = None ∨ password = Some "" →
  token_only
    (AbstractAPICollector._configure_session
       (AbstractAPICollector.mk_attrs base_url (Some token) username password))
    token.
Proof.
  intros Htoken Hpartial. split.
  - by apply api_session_token.
  - by apply api_session_no_auth.
Qed.

Lemma scraper_session_agent (self : AbstractScraper.attrs) :
  session_headers (AbstractScraper._configure_session self) !! "User-Agent"
    = Some (AbstractScraper.user_agent self)
  ∧ (∀ k, k ≠ "User-Agent" →
       session_headers (AbstractScraper._configure_session self) !! k = default_headers !! k)
  ∧ session_auth (AbstractScraper._configure_session self) = None.
Proof.
  unfold AbstractScraper._configure_session.
  destruct (truthy_dict (AbstractScraper.proxies self)); simpl;
    (split; [apply lookup_insert_eq |]);
    (split; [intros k Hk; by rewrite lookup_insert_ne | reflexivity]).
Qed.

Lemma scraper_session_proxies (self : AbstractScraper.attrs) :
  session_proxies (AbstractScraper._configure_session self) =
    default ∅ (AbstractScraper.proxies self).
Proof.
  unfold AbstractScraper._configure_session.
  destruct (AbstractScraper.proxies self) as [d|]; simpl; [| reflexivity].
  case_bool_decide as Hd; simpl.
  - by rewrite Hd.
  - apply (right_id_L ∅ (∪)).
Qed.

(** X4.  Constructing a scraper never fails.  Its agent string is the one
    given, or the fixed default when none or an empty one is given; the
    session sends it as [User-Agent], keeps every other header of the library
    and carries no authentication. *)
Theorem scraper_agent_defaults
    (cls_name base_url : string) (user_agent : option string)
    (proxies : option (gmap string string)) (w : World) :
  let agent := match user_agent with
               | Some a => if decide (a = "") then "Mozilla/5.0 (compatible; AbstractScraper/1.0)"
                           else a
               | None => "Mozilla/5.0 (compatible; AbstractScraper/1.0)"
               end in
  ∃ self, (AbstractScraper.__init__ cls_name base_url user_agent proxies w).1 = Ok self
    ∧ AbstractScraper.user_agent (AbstractScraper.self_attrs self) = agent
    ∧ session_headers (AbstractScraper.session self) !! "User-Agent" = Some agent
    ∧ (∀ k, k ≠ "User-Agent" →
         session_headers (AbstractScraper.session self) !! k = default_headers !! k)
    ∧ session_auth (AbstractScraper.session self) = None.
Proof.
  intros agent. rewrite scraper_init_run. eexists. split; [reflexivity |].
  assert (Hagent : (if truthy_str user_agent then default "" user_agent
                    else "Mozilla/5.0 (compatible; AbstractScraper/1.0)") = agent).
  { subst agent. destruct user_agent as [a|]; [| reflexivity]. simpl.
    destruct (String.eqb_spec a "") as [->|Hne]; simpl; [reflexivity |].
    by rewrite decide_False. }
  rewrite Hagent. cbn [AbstractScraper.self_attrs AbstractScraper.session].
  split; [reflexivity |]. apply scraper_session_agent.
Qed.

(** X5.  The proxy table of a scraper's session is the table given to the
    constructor; no table and an empty table both leave the session without
    proxies. *)
Theorem scraper_proxies_as_given
    (cls_name base_url : string) (user_agent : option string)
    (proxies : option (gmap string string)) (w : World) :
  ∃ self, (AbstractScraper.__init__ cls_name base_url user_agent proxies w).1 = Ok self
    ∧ session_proxies (AbstractScraper.session self) = default ∅ proxies.
Proof.
  rewrite scraper_init_run. eexists. split; [reflexivity |].
  apply scraper_session_proxies.
Qed.
End Sessions.

(** ** What goes on the wire *)
Section Wire.
Context `{Platform}.

(** X6.  A collector constructed with a non-empty token, and without a full
    pair of credentials, sends with every call of [_make_request] one request
    with the method, the parameters and the body it was given, to the address
    made of the base address, a slash and the endpoint, joined as they are;
    the request carries the bearer header and no basic authentication. *)
Theorem dispatch_request_as_configured
    (cls_name base_url token method endpoint : string)
    (username password : option string) (params : option (gmap string string))
    (data : option json) (self : AbstractAPICollector.t) (w0 w1 w : World) :
  token ≠ "" →
  username = None ∨ username = Some "" ∨ password = None ∨ password = Some "" →
  AbstractAPICollector.__init__ cls_name base_url (Some token) username password w0
    = (Ok self, w1) →
  ∃ rq, wire (AbstractAPICollector._make_request self method endpoint params data w).2
          = wire w ++ [rq]
    ∧ rq_method rq = method
    ∧ rq_url rq = base_url +:+ "/" +:+ endpoint
    ∧ rq_params rq = params
    ∧ rq_json rq = data
    ∧ rq_headers rq !! "Authorization" = Some ("Bearer " +:+ token)
    ∧ rq_auth rq = None.
Proof.
  intros Htoken Hpartial Hinit. rewrite api_init_run in Hinit. simplify_eq.
  eexists. split; [apply _make_request_wire |].
  unfold api_request. simpl. repeat split.
  - by apply api_session_token.
  - by apply api_session_no_auth.
Qed.

(** X7.  A scraper sends with every call of [_fetch_page] one GET request
    without body, to the address made of the base address, a slash and the
    endpoint, with the parameters it was given; the request carries the agent
    string and the proxy table fixed at construction and no authentication. *)
Theorem fetch_request_as_configured
    (cls_name base_url endpoint : string) (user_agent : option string)
    (proxies : option (gmap string string)) (params : option (gmap string string))
    (self : AbstractScraper.t) (w0 w1 w : World) :
  AbstractScraper.__init__ cls_name base_url user_agent proxies w0 = (Ok self, w1) →
  ∃ rq, wire (AbstractScraper._fetch_page self endpoint params w).2 = wire w ++ [rq]
    ∧ rq_method rq = "GET"
    ∧ rq_url rq = base_url +:+ "/" +:+ endpoint
    ∧ rq_params rq = params
    ∧ rq_json rq = None
    ∧ rq_headers rq !! "User-Agent"
        = Some (AbstractScraper.user_agent (AbstractScraper.self_attrs self))
    ∧ rq_proxies rq = default ∅ proxies
    ∧ rq_auth rq = None.
Proof.
  intros Hinit. rewrite scraper_init_run in Hinit. simplify_eq.
  eexists. split; [apply _fetch_page_wire |].
  unfold page_request. cbn [rq_method rq_url rq_params rq_json rq_headers rq_proxies rq_auth
    AbstractScraper.session AbstractScraper.self_attrs AbstractScraper.base_url
    AbstractScraper.user_agent].
  repeat split.
  - apply scraper_session_agent.
  - apply scraper_session_proxies.
  - apply scraper_session_agent.
Qed.
End Wire.

(** ** Outcomes of a call *)
Section Outcomes.
Context `{Platform}.

Lemma _make_request_exchange (self : AbstractAPICollector.t) (method endpoint : string)
    (params : option (gmap string string)) (data : option json) (w : World) :
  exchange w (AbstractAPICollector._make_request self method endpoint params data w).2
    (send (length (wire w)) (api_request self method endpoint params data)).
Proof. eexists. split; [apply _make_request_wire | reflexivity]. Qed.

Lemma _fetch_page_exchange (self : AbstractScraper.t) (endpoint : string)
    (params : option (gmap string string)) (w : World) :
  exchange w (AbstractScraper._fetch_page self endpoint params w).2
    (send (length (wire w)) (page_request self endpoint params)).
Proof. eexists. split; [apply _fetch_page_wire | reflexivity]. Qed.

Lemma Response_ok_true (r : Response) :
  Response_ok r = true ↔ ¬ (400 ≤ status_code r ≤ 599).
Proof.
  rewrite <- Response_ok_range. destruct (Response_ok r); split; congruence.
Qed.

(** X8.  [_make_request] returns a value exactly when the transport answered
    with a response whose status is outside [400,599] and whose body decodes;
    the value is the decoded body.  Statuses below 200 and from 600 on count
    as success. *)
Theorem dispatch_returns_iff
    (self : AbstractAPICollector.t) (method endpoint : string)
    (params : option (gmap string string)) (data : option json) (w : World) (j : json) :
  let run := AbstractAPICollector._make_request self method endpoint params data w in
  run.1 = Ok j
  ↔ ∃ r, exchange w run.2 (Ok r) ∧ ¬ (400 ≤ status_code r ≤ 599)
         ∧ json_loads (text r) = Ok j.
Proof.
  intros run. subst run. rewrite _make_request_result. split.
  - intros Hok. unfold classified in Hok.
    destruct (send _ _) as [r|e] eqn:Hsend; [| discriminate].
    destruct (Response_ok r) eqn:Hr; [| discriminate].
    exists r. rewrite <- Hsend. split; [apply _make_request_exchange |].
    split; [by apply Response_ok_true | exact Hok].
  - intros (r & Hex & Hstatus & Hbody).
    apply (exchange_inv _ _ _ _ (_make_request_wire _ _ _ _ _ _)) in Hex.
    rewrite Hex. simpl. by rewrite (proj2 (Response_ok_true r) Hstatus).
Qed.

(** X9.  [_fetch_page] returns a value exactly when the transport answered
    with a response whose status is outside [400,599]; the value is the text
    of the body, whatever it is. *)
Theorem fetch_returns_iff
    (self : AbstractScraper.t) (endpoint : string)
    (params : option (gmap string string)) (w : World) (body : string) :
  let run := AbstractScraper._fetch_page self endpoint params w in
  run.1 = Ok body
  ↔ ∃ r, exchange w run.2 (Ok r) ∧ ¬ (400 ≤ status_code r ≤ 599) ∧ text r = body.
Proof.
  intros run. subst run. rewrite _fetch_page_result. split.
  - intros Hok. unfold classified in Hok.
    destruct (send _ _) as [r|e] eqn:Hsend; [| discriminate].
    destruct (Response_ok r) eqn:Hr; [| discriminate].
    exists r. rewrite <- Hsend. split; [apply _fetch_page_exchange |].
    split; [by apply Response_ok_true | by simplify_eq].
  - intros (r & Hex & Hstatus & <-).
    apply (exchange_inv _ _ _ _ (_fetch_page_wire _ _ _ _)) in Hex.
    rewrite Hex. simpl. by rewrite (proj2 (Response_ok_true r) Hstatus).
Qed.

(** X10.  A call of [_fetch_page] records an instrumentation event exactly
    when the response passed the status check: then there is exactly one,
    named [_fetch_page], with the time elapsed since the call started and the
    status code.  A transport failure or an error status records none. *)
Theorem fetch_instrumentation_after_status_check
    (scraper : AbstractScraper.t) (endpoint : string)
    (params : option (gmap string string)) (w : World) (out : Result Response) :
  let run := AbstractScraper._fetch_page scraper endpoint params w in
  let lg := AbstractScraper.logger scraper in
  let c := clock w in
  configured w lg →
  exchange w run.2 out →
  events_logged w run.2 =
    match out with
    | Ok r =>
        if decide (400 ≤ status_code r ≤ 599) then []
        else [mk_LogRecord lg INFO
                (trace_line "_fetch_page" (float_sub (time_time (S c)) (time_time c))
                   (Some (status_code r)))
                (time_time (S (S c)))]
    | Raise _ => []
    end.
Proof.
  intros run lg c Hcfg Hex.
  apply (exchange_inv _ _ _ _ (_fetch_page_wire _ _ _ _)) in Hex.
  unfold events_logged. subst run.
  rewrite (new_records_app _ _ _ (_fetch_page_records _ _ _ _ Hcfg)), Hex.
  destruct out as [r|e].
  - destruct (Response_ok r) eqn:Hr.
    + rewrite decide_False by (by apply Response_ok_true). reflexivity.
    + rewrite decide_True by (by apply Response_ok_range). reflexivity.
  - destruct (isinstance e RequestException); reflexivity.
Qed.

Lemma http_error_msg_detail (r : Response) :
  400 ≤ status_code r ≤ 599 →
  http_error_msg r =
    pretty (status_code r)
    +:+ (if status_code r <? 500 then " Client Error: " else " Server Error: ")
    +:+ reason r +:+ " for url: " +:+ url r.
Proof.
  intros Hrange. unfold http_error_msg.
  assert ((400 <=? status_code r) = true) as -> by lia. simpl.
  destruct (status_code r <? 500) eqn:Hmid; [reflexivity |].
  assert ((500 <=? status_code r) = true) as -> by lia.
  assert ((status_code r <? 600) = true) as -> by lia. reflexivity.
Qed.

(** X11.  When the server answers with a status in [400,599], the call raises
    an [HTTPError] whose message names the status, [Client Error] below 500
    and [Server Error] from 500 on, the reason and the address; the only
    record the call leaves is one error line made of the prefix of the
    function and that message. *)
Theorem error_status_line
    (collector : AbstractAPICollector.t) (scraper : AbstractScraper.t)
    (method endpoint : string) (params : option (gmap string string))
    (data : option json) (w : World) (r : Response) :
  let api := AbstractAPICollector._make_request collector method endpoint params data w in
  let page := AbstractScraper._fetch_page scraper endpoint params w in
  let detail := pretty (status_code r)
                +:+ (if status_code r <? 500 then " Client Error: " else " Server Error: ")
                +:+ reason r +:+ " for url: " +:+ url r in
  configured w (AbstractAPICollector.logger collector) →
  configured w (AbstractScraper.logger scraper) →
  400 ≤ status_code r ≤ 599 →
  (exchange w api.2 (Ok r) →
     api.1 = Raise (mk_exn HTTPError detail)
     ∧ new_records w api.2 =
         [mk_LogRecord (AbstractAPICollector.logger collector) ERROR
            ("HTTP error occurred: " +:+ detail) (time_time (S (clock w)))])
  ∧ (exchange w page.2 (Ok r) →
     page.1 = Raise (mk_exn HTTPError detail)
     ∧ new_records w page.2 =
         [mk_LogRecord (AbstractScraper.logger scraper) ERROR
            ("HTTP error occurred while fetching page: " +:+ detail)
            (time_time (S (clock w)))]).
Proof.
  intros api page detail Hapi Hpage Hrange.
  pose proof (http_error_msg_detail r Hrange) as Hmsg. fold detail in Hmsg.
  pose proof (proj2 (Response_ok_range r) Hrange) as Hr.
  split; intros Hex.
  - apply (exchange_inv _ _ _ _ (_make_request_wire _ _ _ _ _ _)) in Hex.
    subst api. rewrite _make_request_result.
    rewrite (new_records_app _ _ _ (_make_request_records _ _ _ _ _ _ Hapi)).
    rewrite Hex. simpl. rewrite Hr, Hmsg. split; reflexivity.
  - apply (exchange_inv _ _ _ _ (_fetch_page_wire _ _ _ _)) in Hex.
    subst page. rewrite _fetch_page_result.
    rewrite (new_records_app _ _ _ (_fetch_page_records _ _ _ _ Hpage)).
    rewrite Hex. simpl. rewrite Hr, Hmsg. split; reflexivity.
Qed.

(** X12.  When the transport itself fails, the exception reaches the caller
    and the error line depends on its class through the order of the
    [except] clauses.  [_make_request] logs an [HTTPError] as an HTTP error,
    any other [RequestException] as a request error and anything else as an
    unexpected error; [_fetch_page] logs a [RequestException] that is not an
    [HTTPError] as a request error. *)
Theorem transport_failure_line
    (collector : AbstractAPICollector.t) (scraper : AbstractScraper.t)
    (method endpoint : string) (params : option (gmap string string))
    (data : option json) (w : World) (e : exn) :
  let api := AbstractAPICollector._make_request collector method endpoint params data w in
  let page := AbstractScraper._fetch_page scraper endpoint params w in
  let prefix := match exc_type e with
                | HTTPError => "HTTP error occurred: "
                | ConnectionError | ConnectTimeout | RequestException =>
                    "Request error occurred: "
                | ValueError | ParserRejectedMarkup | Exception => "Unexpected error: "
                end in
  configured w (AbstractAPICollector.logger collector) →
  configured w (AbstractScraper.logger scraper) →
  (exchange w api.2 (Raise e) →
     api.1 = Raise e
     ∧ new_records w api.2 =
         [mk_LogRecord (AbstractAPICollector.logger collector) ERROR
            (prefix +:+ exc_str e) (time_time (S (clock w)))])
  ∧ (exchange w page.2 (Raise e) →
     exc_type e = ConnectionError ∨ exc_type e = ConnectTimeout
     ∨ exc_type e = RequestException →
     page.1 = Raise e
     ∧ new_records w page.2 =
         [mk_LogRecord (AbstractScraper.logger scraper) ERROR
            ("Request error occurred while fetching page: " +:+ exc_str e)
            (time_time (S (clock w)))]).
Proof.
  intros api page prefix Hapi Hpage. split.
  - intros Hex. apply (exchange_inv _ _ _ _ (_make_request_wire _ _ _ _ _ _)) in Hex.
    subst api. rewrite _make_request_result.
    rewrite (new_records_app _ _ _ (_make_request_records _ _ _ _ _ _ Hapi)).
    rewrite Hex. simpl. split; [reflexivity |].
    subst prefix. unfold api_prefix, isinstance. by destruct (exc_type e).
  - intros Hex Hclass. apply (exchange_inv _ _ _ _ (_fetch_page_wire _ _ _ _)) in Hex.
    subst page. rewrite _fetch_page_result.
    rewrite (new_records_app _ _ _ (_fetch_page_records _ _ _ _ Hpage)).
    rewrite Hex. simpl. split; [reflexivity |].
    unfold page_prefix, isinstance. by destruct Hclass as [-> | [-> | ->]].
Qed.
End Outcomes.

(** ** Loggers *)
Section Loggers.
Context `{Platform}.

Lemma configure_logger_configured (name : string) (w : World) :
  configured (configure_logger name w).2 name.
Proof.
  unfold configured, configure_logger, mbind, M_bind, mret, M_ret, getLogger, setLevel,
    StreamHandler, addHandler, setFormatter, set_loggerDict, logger_at.
  destruct (loggerDict w !! name) as [l|] eqn:Hl; simpl;
    rewrite ?Hl, ?lookup_insert_eq; simpl; try case_bool_decide; simpl;
    rewrite ?lookup_insert_eq; reflexivity.
Qed.

Lemma Logger_log_registry (logger : string) (level : Z) (msg : string) (w : World) :
  loggerDict (Logger_log logger level msg w).2 = loggerDict w
  ∧ next_id (Logger_log logger level msg w).2 = next_id w.
Proof. unfold Logger_log. destruct (isEnabledFor _ _); split; reflexivity. Qed.

Lemma log_and_trace_registry (logger name : string) (start_time : float)
    (response : option Response) (w : World) :
  loggerDict (log_and_trace logger name start_time response w).2 = loggerDict w
  ∧ next_id (log_and_trace logger name start_time response w).2 = next_id w.
Proof.
  unfold log_and_trace, mbind, M_bind, time, Logger_info. simpl.
  destruct response as [r|]; [destruct (Response_ok r) |];
    match goal with
    | |- context [Logger_log ?l ?v ?m ?w'] =>
        destruct (Logger_log_registry l v m w') as [-> ->]
    end; split; reflexivity.
Qed.

(** The line a handler made by [configure_logger] writes for a record. *)
Lemma append_empty_r (s : string) : s +:+ "" = s.
Proof.
  induction s as [|c s IH]; [reflexivity |].
  change (String c (s +:+ "") = String c s). by rewrite IH.
Qed.

Lemma fresh_handler_format (w : World) (r : LogRecord) :
  format (fresh_handler w) r =
    formatTime (created r) +:+ " - " +:+ rec_name r +:+ " - "
    +:+ getLevelName (levelno r) +:+ " - " +:+ message r.
Proof.
  unfold format, fresh_handler. cbn.
  change (record_dict r _) with (formatTime (created r)) at 1.
  change (record_dict r _) with (rec_name r) at 1.
  change (record_dict r _) with (getLevelName (levelno r)) at 1.
  change (record_dict r _) with (message r) at 1.
  rewrite append_empty_r. reflexivity.
Qed.

Lemma Logger_log_loggerDict (logger : string) (level : Z) (msg : string) (w : World) :
  loggerDict (Logger_log logger level msg w).2 = loggerDict w.
Proof. apply Logger_log_registry. Qed.

Lemma Logger_log_next_id (logger : string) (level : Z) (msg : string) (w : World) :
  next_id (Logger_log logger level msg w).2 = next_id w.
Proof. apply Logger_log_registry. Qed.

Lemma log_and_trace_loggerDict (logger name : string) (start_time : float)
    (response : option Response) (w : World) :
  loggerDict (log_and_trace logger name start_time response w).2 = loggerDict w.
Proof. apply log_and_trace_registry. Qed.

Lemma log_and_trace_next_id (logger name : string) (start_time : float)
    (response : option Response) (w : World) :
  next_id (log_and_trace logger name start_time response w).2 = next_id w.
Proof. apply log_and_trace_registry. Qed.

(** X13.  A logger named after a class (no dot in the name, not the root
    logger) that [configure_logger] configures for the first time, in an
    interpreter where nobody has asked for the root logger, writes every
    event at informational level or above as one line, made of the time of
    the record, the name of the logger, the name of the level and the
    message, separated by [" - "]. *)
Theorem configured_line_format (name : string) (w : World) (level : Z) (msg : string) :
  top_level_name name →
  root_untouched w →
  handlers_known w →
  lg_handlers (logger_at w name) = [] →
  INFO ≤ level →
  let w' := (configure_logger name w).2 in
  new_lines w' (Logger_log name level msg w').2 =
    [formatTime (time_time (clock w')) +:+ " - " +:+ name +:+ " - "
     +:+ getLevelName level +:+ " - " +:+ msg].
Proof.
  intros _ _ Hknown Hnone Hlevel w'.
  pose proof (configure_logger_configured name w) as Hcfg.
  pose proof (configure_logger_at name name w Hknown) as Hat.
  rewrite decide_True, Hnone in Hat by reflexivity. fold w' in Hcfg, Hat.
  rewrite Logger_log_configured by assumption.
  erewrite new_lines_app by reflexivity.
  unfold callHandlers. rewrite Hat. simpl.
  rewrite filter_cons_True by (simpl; unfold NOTSET, INFO in *; lia).
  rewrite filter_nil. simpl. by rewrite fresh_handler_format.
Qed.

(** X14.  [configure_logger] sets the level of the logger to informational,
    whatever it was before: afterwards an event below that level is dropped
    without a record, a line or a reading of the clock. *)
Theorem configure_logger_sets_threshold (name : string) (w : World) (level : Z) (msg : string) :
  let w' := (configure_logger name w).2 in
  lg_level (logger_at w' name) = INFO
  ∧ (level < INFO → Logger_log name level msg w' = (Ok (), w')).
Proof.
  intros w'. pose proof (configure_logger_configured name w) as Hcfg. fold w' in Hcfg.
  split; [exact Hcfg |]. intros Hlow.
  assert (Hoff : isEnabledFor (logger_at w' name) level = false).
  { unfold configured in Hcfg. unfold isEnabledFor, getEffectiveLevel. rewrite !Hcfg.
    change (INFO =? NOTSET) with false. cbv iota. apply Z.leb_gt. exact Hlow. }
  unfold Logger_log. by rewrite Hoff.
Qed.


(** X16.  Requests, parsing and tracing never change the logger registry:
    no call of [_make_request], [_fetch_page], [_parse_html] or
    [log_and_trace] adds a logger or a handler or changes a level. *)
Theorem calls_keep_registry
    (collector : AbstractAPICollector.t) (scraper : AbstractScraper.t)
    (method endpoint html_content logger name : string)
    (params : option (gmap string string)) (data : option json)
    (start_time : float) (response : option Response) (w : World) :
  loggerDict (AbstractAPICollector._make_request collector method endpoint params data w).2
    = loggerDict w
  ∧ loggerDict (AbstractScraper._fetch_page scraper endpoint params w).2 = loggerDict w
  ∧ loggerDict (AbstractScraper._parse_html scraper html_content w).2 = loggerDict w
  ∧ loggerDict (log_and_trace logger name start_time response w).2 = loggerDict w.
Proof.
  split; [| split; [| split]].
  - rewrite _make_request_run. unfold Logger_error.
    repeat case_match; simpl;
      rewrite ?Logger_log_loggerDict, ?log_and_trace_loggerDict; reflexivity.
  - rewrite _fetch_page_run. unfold Logger_error.
    repeat case_match; simpl;
      rewrite ?Logger_log_loggerDict, ?log_and_trace_loggerDict; reflexivity.
  - rewrite _parse_html_run. unfold Logger_error.
    case_match; simpl; rewrite ?Logger_log_loggerDict; reflexivity.
  - apply log_and_trace_loggerDict.
Qed.

(** X17.  Constructing a collector or a scraper never fails, writes nothing,
    sends nothing and does not read the clock; the instance logs under the
    name of its class, and that logger is left at informational level. *)
Theorem constructors_configure_logger
    (cls_name base_url : string) (api_key username password user_agent : option string)
    (proxies : option (gmap string string)) (w : World) :
  let api := AbstractAPICollector.__init__ cls_name base_url api_key username password w in
  let page := AbstractScraper.__init__ cls_name base_url user_agent proxies w in
  (∃ self, api.1 = Ok self
     ∧ AbstractAPICollector.logger self = cls_name
     ∧ AbstractAPICollector.base_url (AbstractAPICollector.self_attrs self) = base_url
     ∧ configured api.2 cls_name
     ∧ silent w api.2 ∧ wire api.2 = wire w ∧ clock api.2 = clock w)
  ∧ (∃ self, page.1 = Ok self
     ∧ AbstractScraper.logger self = cls_name
     ∧ AbstractScraper.base_url (AbstractScraper.self_attrs self) = base_url
     ∧ configured page.2 cls_name
     ∧ silent w page.2 ∧ wire page.2 = wire w ∧ clock page.2 = clock w).
Proof.
  intros api page. subst api page. rewrite api_init_run, scraper_init_run.
  destruct (configure_logger_frame cls_name w) as (_ & Hhandled & Hstderr & Hwire & Hclock).
  pose proof (configure_logger_configured cls_name w) as Hcfg.
  split; eexists; (split; [reflexivity |]); simpl; repeat split; assumption.
Qed.

(** The world after one call of [log_and_trace] on a configured logger. *)
Lemma log_and_trace_world (logger name : string) (start_time : float)
    (response : option Response) (w : World) :
  configured w logger →
  let code := match response with
              | Some r => if Response_ok r then Some (status_code r) else None
              | None => None
              end in
  let ev := mk_LogRecord logger INFO
              (trace_line name (float_sub (time_time (clock w)) start_time) code)
              (time_time (S (clock w))) in
  log_and_trace logger name start_time response w =
    (Ok (),
     mk_World (loggerDict w) (handled w ++ [ev])
       (stderr w ++ callHandlers (logger_at w logger) ev)
       (wire w) (S (S (clock w))) (next_id w)).
Proof.
  intros Hcfg code ev. unfold log_and_trace, mbind, M_bind, time, Logger_info. simpl.
  destruct response as [r|]; [destruct (Response_ok r) |];
    rewrite Logger_log_configured by still_configured w; reflexivity.
Qed.


(** X19.  [log_and_trace] on a logger that does not accept informational
    events returns normally and records and writes nothing.  Such a logger
    is one whose own level is above [INFO], or one named after a class (no
    dot in the name, not the root logger) whose level was never set, in an
    interpreter where nobody has asked for the root logger: it then takes
    the level [WARNING] of the root logger. *)
Theorem log_and_trace_silent_when_disabled
    (logger name : string) (start_time : float) (response : option Response) (w : World) :
  INFO < lg_level (logger_at w logger)
  ∨ (lg_level (logger_at w logger) = NOTSET ∧ top_level_name logger ∧ root_untouched w) →
  let run := log_and_trace logger name start_time response w in
  run.1 = Ok () ∧ silent w run.2 ∧ wire run.2 = wire w.
Proof.
  intros Hlevel run. subst run.
  assert (Hoff : ∀ w', loggerDict w' = loggerDict w →
                       isEnabledFor (logger_at w' logger) INFO = false).
  { intros w' Hw'. unfold isEnabledFor, getEffectiveLevel, logger_at in *. rewrite Hw'.
    destruct Hlevel as [Hhigh | [-> _]]; [| reflexivity].
    destruct (_ =? NOTSET) eqn:Hz; [reflexivity |]. apply Z.leb_gt. exact Hhigh. }
  unfold log_and_trace, mbind, M_bind, time, Logger_info, Logger_log. simpl.
  destruct response as [r|]; [destruct (Response_ok r) |];
    rewrite Hoff by reflexivity; repeat split.
Qed.

(** X20.  [log_and_trace] on a configured logger returns normally and records
    exactly one informational line: the name, the time elapsed between
    [start_time] and the call, and the status code when a response is given
    whose status is outside [400,599].  It sends nothing and leaves the
    registry alone. *)
Theorem log_and_trace_one_line
    (logger name : string) (start_time : float) (response : option Response) (w : World) :
  configured w logger →
  let run := log_and_trace logger name start_time response w in
  let code := match response with
              | Some r => if decide (400 ≤ status_code r ≤ 599) then None
                          else Some (status_code r)
              | None => None
              end in
  run.1 = Ok ()
  ∧ new_records w run.2 =
      [mk_LogRecord logger INFO
         (trace_line name (float_sub (time_time (clock w)) start_time) code)
         (time_time (S (clock w)))]
  ∧ wire run.2 = wire w ∧ loggerDict run.2 = loggerDict w.
Proof.
  intros Hcfg run code. subst run. rewrite log_and_trace_world by assumption.
  assert (Hcode : match response with
                  | Some r => if Response_ok r then Some (status_code r) else None
                  | None => None
                  end = code).
  { subst code. destruct response as [r|]; [| reflexivity].
    destruct (Response_ok r) eqn:Hr.
    - by rewrite decide_False by (by apply Response_ok_true).
    - by rewrite decide_True by (by apply Response_ok_range). }
  rewrite Hcode. repeat split. by apply new_records_app.
Qed.

Lemma log_and_trace_times_handled (n : nat) (logger name : string) (start_time : float)
    (response : option Response) (w : World) :
  configured w logger →
  let run := log_and_trace_times n logger name start_time response w in
  let code := match response with
              | Some r => if Response_ok r then Some (status_code r) else None
              | None => None
              end in
  ∃ records,
    run.1 = Ok ()
    ∧ handled run.2 = handled w ++ records
    ∧ length records = n
    ∧ Forall (λ ev, rec_name ev = logger ∧ levelno ev = INFO
                    ∧ ∃ elapsed, message ev = trace_line name elapsed code) records
    ∧ wire run.2 = wire w.
Proof.
  revert w. induction n as [|n IH]; intros w Hcfg; simpl.
  - exists []. rewrite app_nil_r. repeat split. constructor.
  - unfold mbind, M_bind. rewrite log_and_trace_world by assumption.
    match goal with
    | |- context [log_and_trace_times n _ _ _ _ ?w1] =>
        destruct (IH w1) as (records & Hret & Hhandled & Hlen & Hall & Hwire);
          [by apply (configured_same_registry w) |]
    end.
    eexists (_ :: records). rewrite Hret, Hhandled, Hwire. simpl.
    rewrite <- app_assoc. repeat split; [by rewrite Hlen |].
    constructor; [| exact Hall]. simpl. repeat split. eauto.
Qed.

(** X21.  Calling [log_and_trace] [n] times in a row with the same arguments
    on a configured logger never fails and records exactly [n] informational
    lines under the logger's name; they have the same shape and differ in
    the elapsed time only. *)
Theorem log_and_trace_repeated
    (n : nat) (logger name : string) (start_time : float)
    (response : option Response) (w : World) :
  configured w logger →
  let run := log_and_trace_times n logger name start_time response w in
  let code := match response with
              | Some r => if decide (400 ≤ status_code r ≤ 599) then None
                          else Some (status_code r)
              | None => None
              end in
  run.1 = Ok ()
  ∧ length (new_records w run.2) = n
  ∧ Forall (λ ev, rec_name ev = logger ∧ levelno ev = INFO
                  ∧ ∃ elapsed, message ev = trace_line name elapsed code)
      (new_records w run.2).
Proof.
  intros Hcfg run code.
  destruct (log_and_trace_times_handled n logger name start_time response w Hcfg)
    as (records & Hret & Hhandled & Hlen & Hall & _).
  assert (Hcode : match response with
                  | Some r => if Response_ok r then Some (status_code r) else None
                  | None => None
                  end = code).
  { subst code. destruct response as [r|]; [| reflexivity].
    destruct (Response_ok r) eqn:Hr.
    - by rewrite decide_False by (by apply Response_ok_true).
    - by rewrite decide_True by (by apply Response_ok_range). }
  rewrite Hcode in Hall. subst run.
  rewrite (new_records_app _ _ _ Hhandled). repeat split; assumption.
Qed.




End Loggers.

(** ** The further properties at concrete inputs *)

(** X3 with a token and a username without password. *)
Lemma token_alone_is_token_only_demo :
  token_only
    (AbstractAPICollector._configure_session
       (AbstractAPICollector.mk_attrs "https://api.example.com" (Some "s3cr3t")
          (Some "ada") None))
    "s3cr3t".
Proof.
  apply (token_alone_is_token_only "https://api.example.com" "s3cr3t" (Some "ada") None).
  - discriminate.
  - right. right. left. reflexivity.
Defined.

(** X6 with the collector of [Demo]. *)
Lemma dispatch_request_as_configured_demo :
  ∃ rq, wire (AbstractAPICollector._make_request Demo.collector "GET" "users/1" None None
                Demo.world).2 = wire Demo.world ++ [rq]
    ∧ rq_method rq = "GET"
    ∧ rq_url rq = "https://api.example.com/users/1"
    ∧ rq_params rq = None
    ∧ rq_json rq = None
    ∧ rq_headers rq !! "Authorization" = Some "Bearer s3cr3t"
    ∧ rq_auth rq = None.
Proof.
  apply (dispatch_request_as_configured "UserCollector" "https://api.example.com" "s3cr3t"
           "GET" "users/1" None None None None Demo.collector initial_world
           (configure_logger "UserCollector" initial_world).2 Demo.world).
  - discriminate.
  - left. reflexivity.
  - vm_compute. reflexivity.
Defined.

(** X7 with the scraper of [Demo]. *)
Lemma fetch_request_as_configured_demo :
  ∃ rq, wire (AbstractScraper._fetch_page Demo.scraper "page" None Demo.world).2
          = wire Demo.world ++ [rq]
    ∧ rq_method rq = "GET"
    ∧ rq_url rq = "https://api.example.com/page"
    ∧ rq_params rq = None
    ∧ rq_json rq = None
    ∧ rq_headers rq !! "User-Agent" = Some "Mozilla/5.0 (compatible; AbstractScraper/1.0)"
    ∧ rq_proxies rq = ∅
    ∧ rq_auth rq = None.
Proof.
  apply (fetch_request_as_configured "PageScraper" "https://api.example.com" "page" None None
           None Demo.scraper initial_world
           (configure_logger "PageScraper" initial_world).2 Demo.world).
  vm_compute. reflexivity.
Defined.

(** X8 and X9 on the resource of [Demo]. *)
Lemma dispatch_returns_iff_demo :
  (AbstractAPICollector._make_request Demo.collector "GET" "users/1" None None
     Demo.world).1 = Ok "[1, 2, 3]".
Proof.
  apply (dispatch_returns_iff Demo.collector "GET" "users/1" None None Demo.world).
  exists (mk_Response 200 "OK" "https://api.example.com/users/1" "[1, 2, 3]").
  split; [| split; [simpl; lia | reflexivity]].
  eexists. split; [apply _make_request_wire | vm_compute; reflexivity].
Defined.

Lemma fetch_returns_iff_demo :
  (AbstractScraper._fetch_page Demo.scraper "users/1" None Demo.world).1 = Ok "[1, 2, 3]".
Proof.
  apply (fetch_returns_iff Demo.scraper "users/1" None Demo.world).
  exists (mk_Response 200 "OK" "https://api.example.com/users/1" "[1, 2, 3]").
  split; [| split; [simpl; lia | reflexivity]].
  eexists. split; [apply _fetch_page_wire | vm_compute; reflexivity].
Defined.

(** X10 on a page that exists and on the missing page. *)
Lemma fetch_instrumentation_after_status_check_demo :
  events_logged Demo.world
    (AbstractScraper._fetch_page Demo.scraper "users/1" None Demo.world).2 =
    [mk_LogRecord "PageScraper" INFO "_fetch_page completed in 0.25s with status code 200" 50]
  ∧ events_logged Demo.world
      (AbstractScraper._fetch_page Demo.scraper "missing" None Demo.world).2 = [].
Proof.
  split.
  - rewrite (fetch_instrumentation_after_status_check Demo.scraper "users/1" None Demo.world
               (Ok (mk_Response 200 "OK" "https://api.example.com/users/1" "[1, 2, 3]"))).
    + vm_compute. reflexivity.
    + apply demo_configured.
    + eexists. split; [apply _fetch_page_wire | vm_compute; reflexivity].
  - rewrite (fetch_instrumentation_after_status_check Demo.scraper "missing" None Demo.world
               (Ok Demo.not_found)).
    + reflexivity.
    + apply demo_configured.
    + eexists. split; [apply _fetch_page_wire | vm_compute; reflexivity].
Defined.

(** X11 on the missing page. *)
Lemma error_status_line_demo :
  (AbstractAPICollector._make_request Demo.collector "GET" "missing" None None
     Demo.world).1
    = Raise (mk_exn HTTPError
               "404 Client Error: Not Found for url: https://api.example.com/missing")
  ∧ message <$> new_records Demo.world
                  (AbstractScraper._fetch_page Demo.scraper "missing" None Demo.world).2
    = ["HTTP error occurred while fetching page: 404 Client Error: Not Found for url: https://api.example.com/missing"].
Proof.
  destruct (error_status_line Demo.collector Demo.scraper "GET" "missing" None None
              Demo.world Demo.not_found) as [Hapi Hpage];
    [apply demo_configured | apply demo_configured | simpl; lia |].
  split.
  - destruct Hapi as [Hresult _]; [| rewrite Hresult; vm_compute; reflexivity].
    eexists. split; [apply _make_request_wire | vm_compute; reflexivity].
  - destruct Hpage as [_ Hrecords]; [| rewrite Hrecords; vm_compute; reflexivity].
    eexists. split; [apply _fetch_page_wire | vm_compute; reflexivity].
Defined.

(** X12 on the host that refuses the connection. *)
Lemma transport_failure_line_demo :
  message <$> new_records Demo.world
                (AbstractAPICollector._make_request Demo.collector "GET" "down" None None
                   Demo.world).2
    = ["Request error occurred: Connection refused"]
  ∧ message <$> new_records Demo.world
                  (AbstractScraper._fetch_page Demo.scraper "down" None Demo.world).2
    = ["Request error occurred while fetching page: Connection refused"].
Proof.
  destruct (transport_failure_line Demo.collector Demo.scraper "GET" "down" None None
              Demo.world (mk_exn ConnectionError "Connection refused")) as [Hapi Hpage];
    [apply demo_configured | apply demo_configured |].
  split.
  - destruct Hapi as [_ Hrecords]; [| rewrite Hrecords; reflexivity].
    eexists. split; [apply _make_request_wire | vm_compute; reflexivity].
  - destruct Hpage as [_ Hrecords]; [| left; reflexivity | rewrite Hrecords; reflexivity].
    eexists. split; [apply _fetch_page_wire | vm_compute; reflexivity].
Defined.

(** X13 on the first logger of a fresh interpreter. *)
Lemma configured_line_format_demo :
  let w' := (configure_logger "UserCollector" initial_world).2 in
  new_lines w' (Logger_log "UserCollector" ERROR "boom" w').2 =
    ["t=0.00 - UserCollector - ERROR - boom"].
Proof.
  pose proof (configured_line_format "UserCollector" initial_world ERROR "boom") as Hline.
  simpl. rewrite Hline.
  - vm_compute. reflexivity.
  - split; [reflexivity | intros [Hroot | Hroot]; discriminate].
  - exact demo_root_untouched.
  - exact demo_handlers_known.
  - reflexivity.
  - done.
Defined.

(** X14 with a debug event. *)
Lemma configure_logger_sets_threshold_demo :
  let w' := (configure_logger "UserCollector" initial_world).2 in
  Logger_log "UserCollector" 10 "detail" w' = (Ok (), w').
Proof.
  apply (configure_logger_sets_threshold "UserCollector" initial_world 10 "detail").
  done.
Defined.



(** X19 on a logger nobody configured. *)
Lemma log_and_trace_silent_when_disabled_demo :
  let run := log_and_trace (H := Demo.platform) "Unconfigured" "fetch_data" (-150) None
               initial_world in
  run.1 = Ok () ∧ silent initial_world run.2 ∧ wire run.2 = wire initial_world.
Proof.
  apply (log_and_trace_silent_when_disabled (H := Demo.platform) "Unconfigured"
           "fetch_data" (-150) None initial_world).
  right. split; [reflexivity |]. split; [| exact demo_root_untouched].
  split; [reflexivity | intros [Hroot | Hroot]; discriminate].
Defined.

(** X20 with a response whose status is an error status. *)
Lemma log_and_trace_one_line_demo :
  message <$> new_records Demo.world
                (log_and_trace (H := Demo.platform) "UserCollector" "fetch_data" (-150)
                   (Some Demo.not_found) Demo.world).2
    = ["fetch_data completed in 1.50s"].
Proof.
  destruct (log_and_trace_one_line (H := Demo.platform) "UserCollector" "fetch_data"
              (-150) (Some Demo.not_found) Demo.world (proj1 demo_configured))
    as (_ & Hrecords & _).
  rewrite Hrecords. vm_compute. reflexivity.
Defined.

(** X21 with three calls. *)
Lemma log_and_trace_repeated_demo :
  let run := log_and_trace_times (H := Demo.platform) 3 "UserCollector" "fetch_data"
               (-150) None Demo.world in
  run.1 = Ok () ∧ length (new_records Demo.world run.2) = 3%nat.
Proof.
  destruct (log_and_trace_repeated (H := Demo.platform) 3 "UserCollector" "fetch_data"
              (-150) None Demo.world (proj1 demo_configured)) as (Hret & Hlen & _).
  split; assumption.
Defined.


